(** * Duplicating an annotation to all pages

    A shallow embedding of [duplicate-to-all-pages.ts] of the annotation
    plugin (page geometry, bounds clipping, the per-kind shape transforms and
    the duplication loop), followed by the properties its specification
    states about it.

    Conventions of the embedding.

    - A JavaScript [number] that holds a coordinate or a length is an exact
      rational in canonical form ([Qc]): every finite double is such a
      rational, [===] is Leibniz equality, and the only arithmetic of the
      module (one subtraction per axis in [clipRectToPageBounds]) is exact.
      Rounding, [NaN] and the infinities are outside the model.
    - A page index is an integer ([Z]).
    - [uuidV4()], [new Date()] and [console.warn] are the effects of the
      module.  They are threaded through a [World]: two counters that index
      the streams [uuid_stream] and [clock] of values the environment hands
      out, and the console output so far.  A [throw] ends the computation
      with the world reached at that point. *)

From Stdlib Require Import QArith Qcanon Lqa.
From stdpp Require Import base numbers strings list gmap pretty.

(** ** Numbers *)

Abbreviation number := Qc.

(** Integer literals of the examples. *)
Definition num (z : Z) : number := Q2Qc (inject_Z z).

Definition Math_max (a b : number) : number :=
  if decide (a ≤ b)%Qc then b else a.

Definition Math_min (a b : number) : number :=
  if decide (a ≤ b)%Qc then a else b.

(** [a !== b] on numbers. *)
Definition strict_ne (a b : number) : bool := negb (bool_decide (a = b)).
Infix "!==" := strict_ne (at level 70, no associativity).

(** ** The types of [@embedpdf/models] the module works on *)

(** Modelled from the spec: the declarations of [Position], [Size], [Rect],
    [Rotation] and [PdfPageObject] live in the models package; their fields
    are the ones the module and its tests read and write. *)
Record Position := { x : number; y : number }.
Record Size := { width : number; height : number }.
Record Rect := { origin : Position; size : Size }.

Inductive Rotation := Degree0 | Degree90 | Degree180 | Degree270.

Record PdfPageObject := {
  index : Z;
  page_size : Size;
  rotation : Rotation;
}.

#[global] Instance Rotation_eq_dec : EqDecision Rotation.
Proof. solve_decision. Defined.
#[global] Instance Position_eq_dec : EqDecision Position.
Proof. solve_decision. Defined.
#[global] Instance Size_eq_dec : EqDecision Size.
Proof. solve_decision. Defined.
#[global] Instance Rect_eq_dec : EqDecision Rect.
Proof. solve_decision. Defined.

(** Values of the properties the module never reads. *)
Inductive JsValue :=
| JsNumber (n : number)
| JsString (s : string)
| JsBoolean (b : bool)
| JsStringArray (items : list string).

(** The value of [new Date()]: milliseconds since the epoch. *)
Record Date := { epochMs : Z }.

(** Modelled from the spec: [PdfAnnotationSubtype] is declared in the models
    package.  [INK], [POLYGON], [POLYLINE] and [LINE] are the members the
    transform dispatches on; every other member takes its default branch,
    of which [SQUARE], [CIRCLE] and [STAMP] are the ones the sources and the
    specification name. *)
Inductive PdfAnnotationSubtype :=
| INK | POLYGON | POLYLINE | LINE | SQUARE | CIRCLE | STAMP.

(** The subtypes whose only geometry is the rect. *)
Inductive SimpleSubtype := SimpleSquare | SimpleCircle | SimpleStamp.

Definition subtype_of_simple (s : SimpleSubtype) : PdfAnnotationSubtype :=
  match s with
  | SimpleSquare => SQUARE
  | SimpleCircle => CIRCLE
  | SimpleStamp => STAMP
  end.

(** Modelled from the spec: the annotation object types of the models
    package.  [PdfAnnotationObject] is a union discriminated by [type]; all
    members share [id], [pageIndex], [rect] and the optional [created], and
    carry the geometry of their kind.  [props] holds every other own
    property (color, strokeColor, strokeWidth, strokeStyle, opacity, flags,
    icon, ...), keyed by its name. *)
Record AnnotationBase := {
  id : string;
  pageIndex : Z;
  rect : Rect;
  created : option Date;
  props : gmap string JsValue;
}.

Record PdfInkListObject := { points : list Position }.
Record LinePoints := { start : Position; end_ : Position }.

Record PdfInkAnnoObject := {
  ink_base : AnnotationBase;
  inkList : list PdfInkListObject;
}.

Record PdfPolygonAnnoObject := {
  polygon_base : AnnotationBase;
  polygon_vertices : list Position;
}.

Record PdfPolylineAnnoObject := {
  polyline_base : AnnotationBase;
  polyline_vertices : list Position;
}.

Record PdfLineAnnoObject := {
  line_base : AnnotationBase;
  linePoints : LinePoints;
}.

Inductive PdfAnnotationObject :=
| AnnoInk (a : PdfInkAnnoObject)
| AnnoPolygon (a : PdfPolygonAnnoObject)
| AnnoPolyline (a : PdfPolylineAnnoObject)
| AnnoLine (a : PdfLineAnnoObject)
| AnnoSimple (t : SimpleSubtype) (a : AnnotationBase).

Definition base (a : PdfAnnotationObject) : AnnotationBase :=
  match a with
  | AnnoInk i => ink_base i
  | AnnoPolygon p => polygon_base p
  | AnnoPolyline p => polyline_base p
  | AnnoLine l => line_base l
  | AnnoSimple _ b => b
  end.

(** [annotation.type] *)
Definition type (a : PdfAnnotationObject) : PdfAnnotationSubtype :=
  match a with
  | AnnoInk _ => INK
  | AnnoPolygon _ => POLYGON
  | AnnoPolyline _ => POLYLINE
  | AnnoLine _ => LINE
  | AnnoSimple t _ => subtype_of_simple t
  end.

(** [{ ...b, rect: r }] *)
Definition with_rect (b : AnnotationBase) (r : Rect) : AnnotationBase :=
  {| id := id b; pageIndex := pageIndex b; rect := r;
     created := created b; props := props b |}.

(** [{ ...b, id: i, pageIndex: p, created: d }] *)
Definition with_identity (b : AnnotationBase) (i : string) (p : Z) (d : Date)
  : AnnotationBase :=
  {| id := i; pageIndex := p; rect := rect b;
     created := Some d; props := props b |}.

(** Replaces the shared fields of an annotation, leaving its kind and the
    geometry of its kind as they are. *)
Definition map_base (f : AnnotationBase → AnnotationBase)
    (a : PdfAnnotationObject) : PdfAnnotationObject :=
  match a with
  | AnnoInk i => AnnoInk {| ink_base := f (ink_base i); inkList := inkList i |}
  | AnnoPolygon p =>
      AnnoPolygon {| polygon_base := f (polygon_base p);
                     polygon_vertices := polygon_vertices p |}
  | AnnoPolyline p =>
      AnnoPolyline {| polyline_base := f (polyline_base p);
                      polyline_vertices := polyline_vertices p |}
  | AnnoLine l => AnnoLine {| line_base := f (line_base l); linePoints := linePoints l |}
  | AnnoSimple t b => AnnoSimple t (f b)
  end.

(** ** The result and the options of the duplication *)

Record DuplicateAnnotationResult := {
  annotations : list PdfAnnotationObject;
  clippedPages : list Z;
}.

Record DuplicateAnnotationOptions := {
  includeSourcePage : option bool;
}.

(** ** Page geometry and clipping *)

Definition getRotatedPageSize (page : PdfPageObject) : Size :=
  let isRotated90or270 :=
    bool_decide (rotation page = Degree90) || bool_decide (rotation page = Degree270) in
  if isRotated90or270
  then {| width := height (page_size page); height := width (page_size page) |}
  else {| width := width (page_size page); height := height (page_size page) |}.

Definition clamp (value min max : number) : number :=
  Math_max min (Math_min max value).

Definition clipRectToPageBounds (rect : Rect) (pageSize : Size) : Rect * bool :=
  let maxX := width pageSize in
  let maxY := height pageSize in
  let clippedX := clamp (x (origin rect)) 0%Qc maxX in
  let clippedY := clamp (y (origin rect)) 0%Qc maxY in
  let maxWidth := (maxX - clippedX)%Qc in
  let maxHeight := (maxY - clippedY)%Qc in
  let clippedWidth := Math_min (width (size rect)) maxWidth in
  let clippedHeight := Math_min (height (size rect)) maxHeight in
  let clippedRect :=
    {| origin := {| x := clippedX; y := clippedY |};
       size := {| width := Math_max 0%Qc clippedWidth;
                  height := Math_max 0%Qc clippedHeight |} |} in
  let wasClipped :=
    (clippedX !== x (origin rect)) ||
    (clippedY !== y (origin rect)) ||
    (clippedWidth !== width (size rect)) ||
    (clippedHeight !== height (size rect)) in
  (clippedRect, wasClipped).

Definition clipPositionToPageBounds (position : Position) (pageSize : Size)
  : Position * bool :=
  let clippedX := clamp (x position) 0%Qc (width pageSize) in
  let clippedY := clamp (y position) 0%Qc (height pageSize) in
  ({| x := clippedX; y := clippedY |},
   (clippedX !== x position) || (clippedY !== y position)).

Definition transformRectForTargetPage (rect : Rect)
    (_sourcePage targetPage : PdfPageObject) : Rect * bool :=
  let targetSize := getRotatedPageSize targetPage in
  clipRectToPageBounds rect targetSize.

Definition transformPositionForTargetPage (position : Position)
    (_sourcePage targetPage : PdfPageObject) : Position * bool :=
  let targetSize := getRotatedPageSize targetPage in
  clipPositionToPageBounds position targetSize.

(** ** Effects *)

(** One [console.warn] of the duplication loop: the values interpolated into
    its message (the id of the source annotation, the index of the target
    page and the size of the target page). *)
Record ClipWarning := {
  warn_annotation : string;
  warn_page : Z;
  warn_size : Size;
}.

Record World := {
  uuid_calls : nat;
  date_calls : nat;
  console : list ClipWarning;
}.

Inductive JsError := Error (message : string).

Inductive Outcome (A : Type) :=
| Returned (a : A) (w : World)
| Thrown (e : JsError) (w : World).
Arguments Returned {A} a w.
Arguments Thrown {A} e w.

Definition M (A : Type) : Type := World → Outcome A.

Definition ret {A} (a : A) : M A := λ w, Returned a w.

Definition bind {A B} (m : M A) (k : A → M B) : M B :=
  λ w, match m w with
       | Returned a w' => k a w'
       | Thrown e w' => Thrown e w'
       end.

Notation "'let*' p ':=' m 'in' k" := (bind m (λ p, k))
  (at level 10, p pattern, m at level 200, k at level 200, only parsing).

Definition throw {A} (e : JsError) : M A := λ w, Thrown e w.

Definition console_warn (msg : ClipWarning) : M unit :=
  λ w, Returned tt {| uuid_calls := uuid_calls w; date_calls := date_calls w;
                      console := console w ++ [msg] |}.

(** The error of a missing source page, with its message. *)
Definition SourcePageNotFound (pageIndex : Z) : JsError :=
  Error ("Source page not found for annotation on page " +:+ pretty pageIndex).

(** [Array.prototype.map] with a callback that reads and assigns a variable
    [s] of the enclosing function (the [wasClipped] flag of the
    transforms): the callback runs on the elements from left to right. *)
Fixpoint Array_map {A B S} (f : A → S → B * S) (l : list A) (s : S) : list B * S :=
  match l with
  | [] => ([], s)
  | a :: l' =>
      let '(b, s) := f a s in
      let '(bs, s) := Array_map f l' s in
      (b :: bs, s)
  end.

(** ** The shape transforms *)

Definition transformInkAnnotation (annotation : PdfInkAnnoObject)
    (sourcePage targetPage : PdfPageObject) : PdfInkAnnoObject * bool :=
  let wasClipped := false in
  let targetSize := getRotatedPageSize targetPage in
  let '(transformedInkList, wasClipped) :=
    Array_map (λ ink wasClipped,
      let '(pts, wasClipped) :=
        Array_map (λ point wasClipped,
          let result := clipPositionToPageBounds point targetSize in
          let wasClipped := if snd result then true else wasClipped in
          (fst result, wasClipped)) (points ink) wasClipped in
      ({| points := pts |}, wasClipped)) (inkList annotation) wasClipped in
  let rectResult :=
    transformRectForTargetPage (rect (ink_base annotation)) sourcePage targetPage in
  let wasClipped := if snd rectResult then true else wasClipped in
  ({| ink_base := with_rect (ink_base annotation) (fst rectResult);
      inkList := transformedInkList |},
   wasClipped).

Definition transformPolygonAnnotation (annotation : PdfPolygonAnnoObject)
    (sourcePage targetPage : PdfPageObject) : PdfPolygonAnnoObject * bool :=
  let wasClipped := false in
  let '(transformedVertices, wasClipped) :=
    Array_map (λ vertex wasClipped,
      let result := transformPositionForTargetPage vertex sourcePage targetPage in
      let wasClipped := if snd result then true else wasClipped in
      (fst result, wasClipped)) (polygon_vertices annotation) wasClipped in
  let rectResult :=
    transformRectForTargetPage (rect (polygon_base annotation)) sourcePage targetPage in
  let wasClipped := if snd rectResult then true else wasClipped in
  ({| polygon_base := with_rect (polygon_base annotation) (fst rectResult);
      polygon_vertices := transformedVertices |},
   wasClipped).

Definition transformPolylineAnnotation (annotation : PdfPolylineAnnoObject)
    (sourcePage targetPage : PdfPageObject) : PdfPolylineAnnoObject * bool :=
  let wasClipped := false in
  let '(transformedVertices, wasClipped) :=
    Array_map (λ vertex wasClipped,
      let result := transformPositionForTargetPage vertex sourcePage targetPage in
      let wasClipped := if snd result then true else wasClipped in
      (fst result, wasClipped)) (polyline_vertices annotation) wasClipped in
  let rectResult :=
    transformRectForTargetPage (rect (polyline_base annotation)) sourcePage targetPage in
  let wasClipped := if snd rectResult then true else wasClipped in
  ({| polyline_base := with_rect (polyline_base annotation) (fst rectResult);
      polyline_vertices := transformedVertices |},
   wasClipped).

Definition transformLineAnnotation (annotation : PdfLineAnnoObject)
    (sourcePage targetPage : PdfPageObject) : PdfLineAnnoObject * bool :=
  let wasClipped := false in
  let startResult :=
    transformPositionForTargetPage (start (linePoints annotation)) sourcePage targetPage in
  let endResult :=
    transformPositionForTargetPage (end_ (linePoints annotation)) sourcePage targetPage in
  let wasClipped := if snd startResult || snd endResult then true else wasClipped in
  let rectResult :=
    transformRectForTargetPage (rect (line_base annotation)) sourcePage targetPage in
  let wasClipped := if snd rectResult then true else wasClipped in
  ({| line_base := with_rect (line_base annotation) (fst rectResult);
      linePoints := {| start := fst startResult; end_ := fst endResult |} |},
   wasClipped).

Definition transformAnnotationForTargetPage (annotation : PdfAnnotationObject)
    (sourcePage targetPage : PdfPageObject) : PdfAnnotationObject * bool :=
  match annotation with
  | AnnoInk ink =>
      let r := transformInkAnnotation ink sourcePage targetPage in
      (AnnoInk (fst r), snd r)
  | AnnoPolygon polygon =>
      let r := transformPolygonAnnotation polygon sourcePage targetPage in
      (AnnoPolygon (fst r), snd r)
  | AnnoPolyline polyline =>
      let r := transformPolylineAnnotation polyline sourcePage targetPage in
      (AnnoPolyline (fst r), snd r)
  | AnnoLine line =>
      let r := transformLineAnnotation line sourcePage targetPage in
      (AnnoLine (fst r), snd r)
  | AnnoSimple t b =>
      let rectResult := transformRectForTargetPage (rect b) sourcePage targetPage in
      (AnnoSimple t (with_rect b (fst rectResult)), snd rectResult)
  end.

(** ** The duplication *)

Section Duplication.

(** The values the environment hands out: [uuid_stream n] is the result of
    the call of [uuidV4()] that [n] calls precede, [clock n] that of
    [new Date()]. *)
Variable uuid_stream : nat → string.
Variable clock : nat → Date.

Definition uuidV4 : M string :=
  λ w, Returned (uuid_stream (uuid_calls w))
         {| uuid_calls := S (uuid_calls w); date_calls := date_calls w;
            console := console w |}.

Definition new_Date : M Date :=
  λ w, Returned (clock (date_calls w))
         {| uuid_calls := uuid_calls w; date_calls := S (date_calls w);
            console := console w |}.

Definition createDuplicateAnnotation (sourceAnnotation : PdfAnnotationObject)
    (sourcePage targetPage : PdfPageObject) : M (PdfAnnotationObject * bool) :=
  let '(transformedAnnotation, wasClipped) :=
    transformAnnotationForTargetPage sourceAnnotation sourcePage targetPage in
  let* fresh_id := uuidV4 in
  let* now := new_Date in
  let duplicatedAnnotation :=
    map_base (λ b, with_identity b fresh_id (index targetPage) now)
      transformedAnnotation in
  ret (duplicatedAnnotation, wasClipped).

(** The body of [for (const targetPage of pages)], on the pages still to
    visit and the two arrays built so far. *)
Fixpoint duplicate_loop (sourceAnnotation : PdfAnnotationObject)
    (sourcePage : PdfPageObject) (includeSourcePage : bool)
    (pages : list PdfPageObject)
    (annotations : list PdfAnnotationObject) (clippedPages : list Z)
  : M DuplicateAnnotationResult :=
  match pages with
  | [] => ret {| annotations := annotations; clippedPages := clippedPages |}
  | targetPage :: pages =>
      if negb includeSourcePage
         && bool_decide (index targetPage = pageIndex (base sourceAnnotation))
      then
        duplicate_loop sourceAnnotation sourcePage includeSourcePage pages
          annotations clippedPages
      else
        let* (annotation, wasClipped) :=
          createDuplicateAnnotation sourceAnnotation sourcePage targetPage in
        let annotations := annotations ++ [annotation] in
        if wasClipped then
          let clippedPages := clippedPages ++ [index targetPage] in
          let* _ := console_warn
            {| warn_annotation := id (base sourceAnnotation);
               warn_page := index targetPage;
               warn_size := page_size targetPage |} in
          duplicate_loop sourceAnnotation sourcePage includeSourcePage pages
            annotations clippedPages
        else
          duplicate_loop sourceAnnotation sourcePage includeSourcePage pages
            annotations clippedPages
  end.

(** [options] is [None] when the argument is left out. *)
Definition generateDuplicateAnnotations (sourceAnnotation : PdfAnnotationObject)
    (pages : list PdfPageObject) (options : option DuplicateAnnotationOptions)
  : M DuplicateAnnotationResult :=
  let options := default {| includeSourcePage := None |} options in
  let includeSourcePage := default false (includeSourcePage options) in
  match
    find (λ p, bool_decide (index p = pageIndex (base sourceAnnotation))) pages
  with
  | None => throw (SourcePageNotFound (pageIndex (base sourceAnnotation)))
  | Some sourcePage =>
      duplicate_loop sourceAnnotation sourcePage includeSourcePage pages [] []
  end.

End Duplication.

(** ** Vocabulary of the properties *)

(** The effective size of a page in the words of the specification: width
    and height swapped at 90 and 270 degrees, the stored size otherwise. *)
Definition effectiveSize (page : PdfPageObject) : Size :=
  match rotation page with
  | Degree90 | Degree270 =>
      {| width := height (page_size page); height := width (page_size page) |}
  | Degree0 | Degree180 => page_size page
  end.

Definition point_within (bound : Size) (p : Position) : Prop :=
  (0 ≤ x p ∧ x p ≤ width bound)%Qc ∧ (0 ≤ y p ∧ y p ≤ height bound)%Qc.

Definition rect_within (bound : Size) (r : Rect) : Prop :=
  (0 ≤ x (origin r))%Qc ∧ (0 ≤ y (origin r))%Qc ∧
  (0 ≤ width (size r))%Qc ∧ (0 ≤ height (size r))%Qc ∧
  (x (origin r) + width (size r) ≤ width bound)%Qc ∧
  (y (origin r) + height (size r) ≤ height bound)%Qc.

(** The geometry an annotation carries besides its rect. *)
Inductive KindGeometry :=
| InkPaths (inkList : list PdfInkListObject)
| Vertices (vertices : list Position)
| Endpoints (linePoints : LinePoints)
| RectOnly.

Definition kind_geometry (a : PdfAnnotationObject) : KindGeometry :=
  match a with
  | AnnoInk i => InkPaths (inkList i)
  | AnnoPolygon p => Vertices (polygon_vertices p)
  | AnnoPolyline p => Vertices (polyline_vertices p)
  | AnnoLine l => Endpoints (linePoints l)
  | AnnoSimple _ _ => RectOnly
  end.

(** Rect, ink points, vertices and line endpoints of an annotation. *)
Definition geometry (a : PdfAnnotationObject) : Rect * KindGeometry :=
  (rect (base a), kind_geometry a).

Definition kind_within (bound : Size) (g : KindGeometry) : Prop :=
  match g with
  | InkPaths inks => Forall (λ ink, Forall (point_within bound) (points ink)) inks
  | Vertices vs => Forall (point_within bound) vs
  | Endpoints l => point_within bound (start l) ∧ point_within bound (end_ l)
  | RectOnly => True
  end.

Definition geometry_within (bound : Size) (a : PdfAnnotationObject) : Prop :=
  rect_within bound (rect (base a)) ∧ kind_within bound (kind_geometry a).

(** The value of [includeSourcePage] a call runs with. *)
Definition includes_source (options : option DuplicateAnnotationOptions) : bool :=
  match options with
  | Some o => default false (includeSourcePage o)
  | None => false
  end.

(** The pages of a call that receive a duplicate, in the order of [pages]. *)
Definition eligible_pages (sourceIndex : Z) (includeSource : bool)
    (pages : list PdfPageObject) : list PdfPageObject :=
  filter (λ p, includeSource = true ∨ index p ≠ sourceIndex) pages.

(** Whether the shape transform reports clipping on a target page. *)
Definition clips (sourceAnnotation : PdfAnnotationObject)
    (sourcePage targetPage : PdfPageObject) : Prop :=
  snd (transformAnnotationForTargetPage sourceAnnotation sourcePage targetPage) = true.

#[global] Instance clips_dec a sp tp : Decision (clips a sp tp).
Proof. unfold clips. apply _. Defined.

(** The duplicate for [targetPage] that carries the id [i] and the creation
    date [d]. *)
Definition duplicate_with (i : string) (d : Date)
    (sourceAnnotation : PdfAnnotationObject) (sourcePage targetPage : PdfPageObject)
  : PdfAnnotationObject :=
  map_base (λ b, with_identity b i (index targetPage) d)
    (fst (transformAnnotationForTargetPage sourceAnnotation sourcePage targetPage)).

(** The warning of the loop for a clipped target page. *)
Definition clip_warning (sourceAnnotation : PdfAnnotationObject)
    (targetPage : PdfPageObject) : ClipWarning :=
  {| warn_annotation := id (base sourceAnnotation);
     warn_page := index targetPage;
     warn_size := page_size targetPage |}.

(** The points of a path clipped one by one, and whether one of them moved. *)
Definition clip_points (bound : Size) (ps : list Position) : list Position :=
  (λ p, fst (clipPositionToPageBounds p bound)) <$> ps.

Definition any_point_clipped (bound : Size) (ps : list Position) : bool :=
  existsb (λ p, snd (clipPositionToPageBounds p bound)) ps.

(** The duplicates a run of the loop makes for [targets] when it starts in
    the world [w], and the world it leaves. *)
Definition duplicates (uuid_stream : nat → string) (clock : nat → Date) (w : World)
    (sourceAnnotation : PdfAnnotationObject) (sourcePage : PdfPageObject)
    (targets : list PdfPageObject) : list PdfAnnotationObject :=
  imap (λ k targetPage,
          duplicate_with (uuid_stream (uuid_calls w + k)%nat)
            (clock (date_calls w + k)%nat) sourceAnnotation sourcePage targetPage)
       targets.

Definition world_after (w : World) (sourceAnnotation : PdfAnnotationObject)
    (sourcePage : PdfPageObject) (targets : list PdfPageObject) : World :=
  {| uuid_calls := uuid_calls w + length targets;
     date_calls := date_calls w + length targets;
     console :=
       console w
       ++ (clip_warning sourceAnnotation <$> filter (clips sourceAnnotation sourcePage) targets) |}.

(** Two page lists that agree in everything but the size and the rotation of
    the pages with index [sourceIndex]. *)
Definition differ_only_at_source (sourceIndex : Z)
    (pages1 pages2 : list PdfPageObject) : Prop :=
  Forall2 (λ p q, index p = index q ∧ (index p ≠ sourceIndex → p = q)) pages1 pages2.

(** ** The fixtures of the test-suite *)

Definition createMockPage (index width height : Z) (rotation : Rotation)
  : PdfPageObject :=
  {| index := index;
     page_size := {| width := num width; height := num height |};
     rotation := rotation |}.

Definition mkRect (x y width height : Z) : Rect :=
  {| origin := {| x := num x; y := num y |};
     size := {| width := num width; height := num height |} |}.

Definition createSquareAnnotation (id : string) (pageIndex x y width height : Z)
  : PdfAnnotationObject :=
  AnnoSimple SimpleSquare
    {| id := id; pageIndex := pageIndex; rect := mkRect x y width height;
       created := None;
       props := {[ "color" := JsString "#FF0000";
                   "strokeColor" := JsString "#000000";
                   "strokeWidth" := JsNumber (num 1);
                   "opacity" := JsNumber (num 1);
                   "flags" := JsStringArray ["print"];
                   "strokeStyle" := JsString "SOLID" ]} |}.

Definition createInkAnnotation (id : string) (pageIndex x y width height : Z)
  : PdfAnnotationObject :=
  AnnoInk
    {| ink_base :=
         {| id := id; pageIndex := pageIndex; rect := mkRect x y width height;
            created := None;
            props := {[ "color" := JsString "#0000FF";
                        "strokeWidth" := JsNumber (num 2);
                        "opacity" := JsNumber (num 1) ]} |};
       inkList :=
         [ {| points := [ {| x := num (x + 10); y := num (y + 10) |};
                          {| x := num (x + 20); y := num (y + 20) |};
                          {| x := num (x + 30); y := num (y + 30) |} ] |} ] |}.

Definition createLineAnnotation (id : string) (pageIndex startX startY endX endY : Z)
  : PdfAnnotationObject :=
  let minX := Z.min startX endX in
  let minY := Z.min startY endY in
  let maxX := Z.max startX endX in
  let maxY := Z.max startY endY in
  AnnoLine
    {| line_base :=
         {| id := id; pageIndex := pageIndex;
            rect := mkRect minX minY (maxX - minX) (maxY - minY);
            created := None;
            props := {[ "color" := JsString "#00FF00";
                        "strokeColor" := JsString "#000000";
                        "strokeWidth" := JsNumber (num 1);
                        "opacity" := JsNumber (num 1);
                        "strokeStyle" := JsString "SOLID" ]} |};
       linePoints := {| start := {| x := num startX; y := num startY |};
                        end_ := {| x := num endX; y := num endY |} |} |}.

(** A world in which nothing has happened yet, and an environment for the
    examples: the n-th identifier is ["uuid-n"], the n-th date is [n]. *)
Definition initial_world : World :=
  {| uuid_calls := 0; date_calls := 0; console := [] |}.

Definition example_uuids (n : nat) : string := "uuid-" +:+ pretty n.
Definition example_clock (n : nat) : Date := {| epochMs := Z.of_nat n |}.

(** A call in the environment of the examples, and what a test reads off its
    result. *)
Definition run_example (sourceAnnotation : PdfAnnotationObject)
    (pages : list PdfPageObject) (options : option DuplicateAnnotationOptions)
  : Outcome DuplicateAnnotationResult :=
  generateDuplicateAnnotations example_uuids example_clock sourceAnnotation pages
    options initial_world.

Definition result_of (o : Outcome DuplicateAnnotationResult)
  : option DuplicateAnnotationResult :=
  match o with
  | Returned r _ => Some r
  | Thrown _ _ => None
  end.

Definition pageIndexes (r : DuplicateAnnotationResult) : list Z :=
  (λ a, pageIndex (base a)) <$> annotations r.

Definition geometries (r : DuplicateAnnotationResult) : list (Rect * KindGeometry) :=
  geometry <$> annotations r.

(** ** Vocabulary of the further properties *)

(** Every point an annotation carries besides its rect: the points of all
    strokes, the vertices, or the two endpoints. *)
Definition kind_points (g : KindGeometry) : list Position :=
  match g with
  | InkPaths inks => concat (points <$> inks)
  | Vertices vs => vs
  | Endpoints l => [start l; end_ l]
  | RectOnly => []
  end.



(** How much geometry an annotation carries: the number of points of each
    stroke, the number of vertices. *)
Inductive KindShape :=
| InkShape (strokes : list nat)
| VerticesShape (vertices : nat)
| EndpointsShape
| RectShape.

Definition kind_shape (g : KindGeometry) : KindShape :=
  match g with
  | InkPaths inks => InkShape ((λ ink, length (points ink)) <$> inks)
  | Vertices vs => VerticesShape (length vs)
  | Endpoints _ => EndpointsShape
  | RectOnly => RectShape
  end.

(** One size no larger than another, in width and in height. *)
Definition size_le (s1 s2 : Size) : Prop :=
  (width s1 ≤ width s2)%Qc ∧ (height s1 ≤ height s2)%Qc.

(** A size without negative extent. *)
Definition size_nonneg (s : Size) : Prop :=
  (0 ≤ width s)%Qc ∧ (0 ≤ height s)%Qc.

(** * Properties *)

(** ** The assertions of the test-suite *)

Example test_excluding_source_page :
  pageIndexes <$> result_of (run_example
    (createSquareAnnotation "anno-1" 0 100 100 50 50)
    [createMockPage 0 612 792 Degree0; createMockPage 1 612 792 Degree0;
     createMockPage 2 612 792 Degree0; createMockPage 3 612 792 Degree0] None)
  = Some [1; 2; 3]%Z.
Proof. by vm_compute. Qed.

Example test_including_source_page :
  pageIndexes <$> result_of (run_example
    (createSquareAnnotation "anno-1" 0 100 100 50 50)
    [createMockPage 0 612 792 Degree0; createMockPage 1 612 792 Degree0;
     createMockPage 2 612 792 Degree0]
    (Some {| includeSourcePage := Some true |}))
  = Some [0; 1; 2]%Z.
Proof. by vm_compute. Qed.

Example test_same_sized_pages :
  geometries <$> result_of (run_example
    (createSquareAnnotation "anno-1" 0 100 200 50 75)
    [createMockPage 0 612 792 Degree0; createMockPage 1 612 792 Degree0;
     createMockPage 2 612 792 Degree0] None)
  = Some [(mkRect 100 200 50 75, RectOnly); (mkRect 100 200 50 75, RectOnly)].
Proof. by vm_compute. Qed.

Example test_smaller_target_page :
  (λ r, (geometries r, clippedPages r)) <$> result_of (run_example
    (createSquareAnnotation "anno-1" 0 400 500 100 100)
    [createMockPage 0 612 792 Degree0; createMockPage 1 300 400 Degree0] None)
  = Some ([(mkRect 300 400 0 0, RectOnly)], [1%Z]).
Proof. by vm_compute. Qed.

Example test_fitting_target_pages :
  clippedPages <$> result_of (run_example
    (createSquareAnnotation "anno-1" 0 100 100 50 50)
    [createMockPage 0 612 792 Degree0; createMockPage 1 612 792 Degree0;
     createMockPage 2 1000 1000 Degree0] None)
  = Some [].
Proof. by vm_compute. Qed.

Example test_rotated_pages :
  (λ r, (pageIndexes r, clippedPages r)) <$> result_of (run_example
    (createSquareAnnotation "anno-1" 0 100 100 50 50)
    [createMockPage 0 612 792 Degree0; createMockPage 1 612 792 Degree90;
     createMockPage 2 612 792 Degree180; createMockPage 3 612 792 Degree270] None)
  = Some ([1; 2; 3]%Z, []).
Proof. by vm_compute. Qed.

Example test_ink_points_kept :
  geometries <$> result_of (run_example
    (createInkAnnotation "ink-1" 0 100 100 40 40)
    [createMockPage 0 612 792 Degree0; createMockPage 1 612 792 Degree0] None)
  = Some [(mkRect 100 100 40 40,
           InkPaths [ {| points := [ {| x := num 110; y := num 110 |};
                                     {| x := num 120; y := num 120 |};
                                     {| x := num 130; y := num 130 |} ] |} ])].
Proof. by vm_compute. Qed.

Example test_ink_points_clipped :
  (λ r, (geometries r, clippedPages r)) <$> result_of (run_example
    (createInkAnnotation "ink-1" 0 80 80 40 40)
    [createMockPage 0 612 792 Degree0; createMockPage 1 100 100 Degree0] None)
  = Some ([(mkRect 80 80 20 20,
            InkPaths [ {| points := [ {| x := num 90; y := num 90 |};
                                      {| x := num 100; y := num 100 |};
                                      {| x := num 100; y := num 100 |} ] |} ])],
          [1%Z]).
Proof. by vm_compute. Qed.

Example test_line_points_kept :
  geometries <$> result_of (run_example
    (createLineAnnotation "line-1" 0 100 100 200 200)
    [createMockPage 0 612 792 Degree0; createMockPage 1 612 792 Degree0] None)
  = Some [(mkRect 100 100 100 100,
           Endpoints {| start := {| x := num 100; y := num 100 |};
                        end_ := {| x := num 200; y := num 200 |} |})].
Proof. by vm_compute. Qed.

Example test_single_page :
  result_of (run_example (createSquareAnnotation "anno" 0 100 100 50 50)
    [createMockPage 0 612 792 Degree0] None)
  = Some {| annotations := []; clippedPages := [] |}.
Proof. by vm_compute. Qed.

Example test_annotation_at_page_edge :
  (λ r, (length (annotations r), clippedPages r)) <$> result_of (run_example
    (createSquareAnnotation "anno" 0 562 742 50 50)
    [createMockPage 0 612 792 Degree0; createMockPage 1 612 792 Degree0] None)
  = Some (1%nat, []).
Proof. by vm_compute. Qed.

Example test_zero_size_annotation :
  geometries <$> result_of (run_example
    (createSquareAnnotation "anno" 0 100 100 0 0)
    [createMockPage 0 612 792 Degree0; createMockPage 1 612 792 Degree0] None)
  = Some [(mkRect 100 100 0 0, RectOnly)].
Proof. by vm_compute. Qed.

(** ** Exact arithmetic on numbers *)

(** Goals of linear arithmetic over [Qc] are moved to [Q], where [lra]
    decides them. *)
Lemma Qc_eq_Qeq (a b : Qc) : a = b ↔ (this a == this b)%Q.
Proof. split; [intros ->; reflexivity | apply Qc_is_canon]. Qed.

Lemma this_Qcminus (a b : Qc) : (this (a - b)%Qc == this a - this b)%Q.
Proof.
  unfold Qcminus, Qcplus, Qcopp, Q2Qc; simpl.
  rewrite !Qred_correct. reflexivity.
Qed.

Lemma this_Qcplus (a b : Qc) : (this (a + b)%Qc == this a + this b)%Q.
Proof. unfold Qcplus, Q2Qc; simpl. rewrite !Qred_correct. reflexivity. Qed.

Lemma this_Q2Qc (q : Q) : (this (Q2Qc q) == q)%Q.
Proof. apply Qred_correct. Qed.

Ltac qc_lra :=
  intros;
  repeat match goal with
  | |- ¬ _ => intros ?
  | |- @eq Qc _ _ => apply Qc_is_canon
  | H : @eq Qc _ _ |- _ => apply Qc_eq_Qeq in H
  | H : ¬ (@eq Qc _ _) |- _ => rewrite Qc_eq_Qeq in H
  end;
  unfold Qcle, Qclt in *;
  repeat first [ rewrite this_Qcminus in * | rewrite this_Qcplus in *
               | rewrite this_Q2Qc in * ];
  lra.

Ltac min_max_cases :=
  unfold clamp, Math_max, Math_min in *; repeat case_decide.

Lemma strict_ne_true (a b : number) : (a !== b) = true ↔ a ≠ b.
Proof.
  unfold strict_ne. rewrite negb_true_iff, bool_decide_eq_false. done.
Qed.

Lemma strict_ne_false (a b : number) : (a !== b) = false ↔ a = b.
Proof.
  unfold strict_ne. rewrite negb_false_iff, bool_decide_eq_true. done.
Qed.

Lemma clamp_range (v W : number) :
  (0 ≤ W)%Qc → (0 ≤ clamp v 0 W)%Qc ∧ (clamp v 0 W ≤ W)%Qc.
Proof. intros HW. min_max_cases; split; qc_lra. Qed.

Lemma clamp_inside (v W : number) :
  (0 ≤ v)%Qc → (v ≤ W)%Qc → clamp v 0 W = v.
Proof. intros Hv HW. min_max_cases; qc_lra. Qed.

Lemma clamp_above (v W : number) :
  (0 ≤ W)%Qc → (W < v)%Qc → clamp v 0 W = W.
Proof. intros Hv HW. min_max_cases; qc_lra. Qed.

Lemma clamp_below (v W : number) :
  (v < 0)%Qc → clamp v 0 W = 0%Qc.
Proof. intros Hv. min_max_cases; qc_lra. Qed.

(** ** The page geometry resolver *)

Lemma getRotatedPageSize_effective (page : PdfPageObject) :
  getRotatedPageSize page = effectiveSize page.
Proof.
  unfold getRotatedPageSize, effectiveSize.
  destruct page as [i [w h] r]; destruct r; reflexivity.
Qed.

Lemma effectiveSize_nonneg (page : PdfPageObject) :
  (0 ≤ width (page_size page))%Qc → (0 ≤ height (page_size page))%Qc →
  (0 ≤ width (effectiveSize page))%Qc ∧ (0 ≤ height (effectiveSize page))%Qc.
Proof.
  unfold effectiveSize. destruct (rotation page); simpl; auto.
Qed.

(** ** The bounds clipper *)

Lemma clipPosition_within (p : Position) (bound : Size) :
  (0 ≤ width bound)%Qc → (0 ≤ height bound)%Qc →
  point_within bound (fst (clipPositionToPageBounds p bound)).
Proof.
  intros HW HH. unfold point_within, clipPositionToPageBounds; simpl.
  split; apply clamp_range; assumption.
Qed.

Lemma clipPosition_flag (p : Position) (bound : Size) :
  snd (clipPositionToPageBounds p bound) = true
  ↔ fst (clipPositionToPageBounds p bound) ≠ p.
Proof.
  destruct p as [px py]. unfold clipPositionToPageBounds; simpl.
  rewrite orb_true_iff, !strict_ne_true. split.
  - intros [H | H] [= Hx Hy]; congruence.
  - intros H.
    destruct (decide (clamp px 0 (width bound) = px)) as [Hx | Hx]; [| by left].
    destruct (decide (clamp py 0 (height bound) = py)) as [Hy | Hy]; [| by right].
    rewrite Hx, Hy in H. done.
Qed.

Lemma clipPosition_inside (p : Position) (bound : Size) :
  point_within bound p →
  clipPositionToPageBounds p bound = (p, false).
Proof.
  intros [[Hx0 Hx1] [Hy0 Hy1]]. destruct p as [px py]; simpl in *.
  unfold clipPositionToPageBounds; simpl.
  rewrite !clamp_inside by assumption.
  f_equal. apply orb_false_iff. split; by apply strict_ne_false.
Qed.

Lemma clipRect_within (r : Rect) (bound : Size) :
  (0 ≤ width bound)%Qc → (0 ≤ height bound)%Qc →
  rect_within bound (fst (clipRectToPageBounds r bound)).
Proof.
  intros HW HH. unfold rect_within, clipRectToPageBounds; simpl.
  destruct (clamp_range (x (origin r)) _ HW) as [Hx0 Hx1].
  destruct (clamp_range (y (origin r)) _ HH) as [Hy0 Hy1].
  revert Hx0 Hx1 Hy0 Hy1.
  generalize (clamp (x (origin r)) 0 (width bound)).
  generalize (clamp (y (origin r)) 0 (height bound)).
  intros cy cx Hx0 Hx1 Hy0 Hy1.
  repeat split; try assumption; min_max_cases; qc_lra.
Qed.

Lemma clipRect_inside (r : Rect) (bound : Size) :
  rect_within bound r → clipRectToPageBounds r bound = (r, false).
Proof.
  intros (Hx & Hy & Hw & Hh & Hxw & Hyh).
  destruct r as [[rx ry] [rw rh]]; simpl in *.
  unfold clipRectToPageBounds; simpl.
  assert (clamp rx 0 (width bound) = rx) as -> by (apply clamp_inside; qc_lra).
  assert (clamp ry 0 (height bound) = ry) as -> by (apply clamp_inside; qc_lra).
  assert (Math_min rw (width bound - rx) = rw) as ->
    by (min_max_cases; qc_lra).
  assert (Math_min rh (height bound - ry) = rh) as ->
    by (min_max_cases; qc_lra).
  assert (Math_max 0 rw = rw) as -> by (min_max_cases; qc_lra).
  assert (Math_max 0 rh = rh) as -> by (min_max_cases; qc_lra).
  f_equal. rewrite !orb_false_iff. repeat split; by apply strict_ne_false.
Qed.

Lemma clipRect_changed_iff_flagged (r : Rect) (bound : Size) :
  (0 ≤ width (size r))%Qc → (0 ≤ height (size r))%Qc →
  (0 ≤ width bound)%Qc → (0 ≤ height bound)%Qc →
  snd (clipRectToPageBounds r bound) = true
  ↔ fst (clipRectToPageBounds r bound) ≠ r.
Proof.
  intros Hw Hh HW HH. destruct r as [[rx ry] [rw rh]]; simpl in *.
  unfold clipRectToPageBounds; simpl.
  destruct (clamp_range rx _ HW) as [Hx0 Hx1].
  destruct (clamp_range ry _ HH) as [Hy0 Hy1].
  set (cx := clamp rx 0 (width bound)) in *.
  set (cy := clamp ry 0 (height bound)) in *.
  assert (Math_max 0 (Math_min rw (width bound - cx)) = Math_min rw (width bound - cx))
    as -> by (min_max_cases; qc_lra).
  assert (Math_max 0 (Math_min rh (height bound - cy)) = Math_min rh (height bound - cy))
    as -> by (min_max_cases; qc_lra).
  rewrite !orb_true_iff, !strict_ne_true. split.
  - intros H [= Ex Ey Ew Eh]. tauto.
  - intros H.
    destruct (decide (cx = rx)) as [Ex | Ex]; [| tauto].
    destruct (decide (cy = ry)) as [Ey | Ey]; [| tauto].
    destruct (decide (Math_min rw (width bound - cx) = rw)) as [Ew | Ew]; [| tauto].
    destruct (decide (Math_min rh (height bound - cy) = rh)) as [Eh | Eh]; [| tauto].
    rewrite Ex, Ey in H. rewrite Ex in Ew. rewrite Ey in Eh.
    rewrite Ew, Eh in H. done.
Qed.




(** C5, as stated, fails on a rect of negative height: the rect
    (50, 10, 50, -5) has its origin inside a 100 x 100 bound, ends on the
    right edge exactly and ends above the bottom edge; it comes back with
    height 0, so a dimension changed, and is not flagged.  Against a
    negative bound the flag errs the other way: the empty rect at the origin
    comes back as it is, flagged. *)
Lemma clipRectToPageBounds_flag_misses_change :
  let r := mkRect 50 10 50 (-5) in
  let bound := {| width := num 100; height := num 100 |} in
  let empty := mkRect 0 0 0 0 in
  let negative := {| width := num (-1); height := num (-1) |} in
  ((0 ≤ x (origin r))%Qc ∧ (x (origin r) ≤ width bound)%Qc ∧
   (0 ≤ y (origin r))%Qc ∧ (y (origin r) ≤ height bound)%Qc ∧
   (x (origin r) + width (size r))%Qc = width bound ∧
   (y (origin r) + height (size r) ≤ height bound)%Qc) ∧
  clipRectToPageBounds r bound = (mkRect 50 10 50 0, false) ∧
  fst (clipRectToPageBounds r bound) ≠ r ∧
  clipRectToPageBounds empty negative = (empty, true).
Proof.
  cbv zeta. split; [| split; [| split]].
  - repeat split; by vm_compute.
  - by vm_compute.
  - vm_compute. intros [=].
  - by vm_compute.
Qed.

(** C5, amended.  [clipPositionToPageBounds] clamps x into [0, width] for a
    width that is not negative, and y into [0, height] for a height that is
    not negative, each on its own, and flags exactly a change of the
    position; [clipRectToPageBounds], on a rect of non-negative width and
    height against a non-negative bound, flags exactly a change of the rect;
    such a rect with its origin inside the bound, ending on the right edge
    exactly and not below the bottom edge, comes back unchanged and
    unflagged. *)
Theorem clip_flags_exactly_changes :
  (∀ (p : Position) (bound : Size),
     let out := fst (clipPositionToPageBounds p bound) in
     ((0 ≤ width bound)%Qc →
      x out = (if decide (x p < 0)%Qc then 0%Qc
               else if decide (width bound < x p)%Qc then width bound else x p) ∧
      (0 ≤ x out)%Qc ∧ (x out ≤ width bound)%Qc) ∧
     ((0 ≤ height bound)%Qc →
      y out = (if decide (y p < 0)%Qc then 0%Qc
               else if decide (height bound < y p)%Qc then height bound else y p) ∧
      (0 ≤ y out)%Qc ∧ (y out ≤ height bound)%Qc) ∧
     (snd (clipPositionToPageBounds p bound) = true ↔ out ≠ p)) ∧
  (∀ (r : Rect) (bound : Size),
     (0 ≤ width (size r))%Qc → (0 ≤ height (size r))%Qc →
     (0 ≤ width bound)%Qc → (0 ≤ height bound)%Qc →
     (snd (clipRectToPageBounds r bound) = true
      ↔ fst (clipRectToPageBounds r bound) ≠ r)) ∧
  (∀ (r : Rect) (bound : Size),
     (0 ≤ width (size r))%Qc → (0 ≤ height (size r))%Qc →
     (0 ≤ x (origin r))%Qc → (x (origin r) ≤ width bound)%Qc →
     (0 ≤ y (origin r))%Qc → (y (origin r) ≤ height bound)%Qc →
     (x (origin r) + width (size r))%Qc = width bound →
     (y (origin r) + height (size r) ≤ height bound)%Qc →
     clipRectToPageBounds r bound = (r, false)).
Proof.
  split; [| split].
  - intros p bound out. subst out. split; [| split].
    + intros HW. split; [| by apply clamp_range]. simpl. repeat case_decide.
      * by apply clamp_below.
      * apply clamp_above; [done | qc_lra].
      * apply clamp_inside; qc_lra.
    + intros HH. split; [| by apply clamp_range]. simpl. repeat case_decide.
      * by apply clamp_below.
      * apply clamp_above; [done | qc_lra].
      * apply clamp_inside; qc_lra.
    + apply clipPosition_flag.
  - intros r bound. apply clipRect_changed_iff_flagged.
  - intros r bound Hw Hh Hx0 Hx1 Hy0 Hy1 Hxw Hyh.
    apply clipRect_inside. unfold rect_within. repeat split; try done.
    qc_lra.
Qed.

(** The amended statement at a point right of a 100 x 100 bound, at a rect
    that overflows it, and at the rect of the edge case of the test-suite
    (562, 742, 50, 50) on a 612 x 792 page. *)
Lemma clip_flags_exactly_changes_witness :
  (x (fst (clipPositionToPageBounds {| x := num 130; y := num 40 |}
             {| width := num 100; height := num 100 |})) = num 100 ∧
   (snd (clipRectToPageBounds (mkRect 60 120 70 20)
           {| width := num 100; height := num 100 |}) = true
    ↔ fst (clipRectToPageBounds (mkRect 60 120 70 20)
             {| width := num 100; height := num 100 |}) ≠ mkRect 60 120 70 20)) ∧
  clipRectToPageBounds (mkRect 562 742 50 50)
    {| width := num 612; height := num 792 |} = (mkRect 562 742 50 50, false).
Proof.
  destruct clip_flags_exactly_changes as (Hpos & Hrect & Hedge).
  split; [split |].
  - destruct (Hpos {| x := num 130; y := num 40 |}
                {| width := num 100; height := num 100 |}) as (Hx & _).
    destruct Hx as (Hx & _); [by vm_compute |].
    rewrite Hx. by vm_compute.
  - apply Hrect; by vm_compute.
  - apply Hedge; by vm_compute.
Defined.

(** ** The shape transforms *)

#[local] Arguments clipPositionToPageBounds : simpl never.
#[local] Arguments clipRectToPageBounds : simpl never.
#[local] Arguments getRotatedPageSize : simpl never.

(** A callback that computes its element from the input alone and only ever
    raises the flag. *)
Lemma Array_map_raise {A B} (g : A → bool → B * bool) (h : A → B) (c : A → bool)
    (l : list A) (s : bool) :
  (∀ a s, g a s = (h a, s || c a)) →
  Array_map g l s = (h <$> l, s || existsb c l).
Proof.
  intros Hg. revert s. induction l as [| a l IH]; intros s; simpl.
  - by rewrite orb_false_r.
  - rewrite Hg, IH. by rewrite orb_assoc.
Qed.

Lemma Array_map_clip_points (bound : Size) (ps : list Position) (s : bool) :
  Array_map (λ point wasClipped,
      let result := clipPositionToPageBounds point bound in
      let wasClipped := if snd result then true else wasClipped in
      (fst result, wasClipped)) ps s
  = (clip_points bound ps, s || any_point_clipped bound ps).
Proof.
  apply (Array_map_raise _ (λ p, fst (clipPositionToPageBounds p bound))
           (λ p, snd (clipPositionToPageBounds p bound))).
  intros a b; cbv zeta.
  by destruct (snd (clipPositionToPageBounds a bound)), b.
Qed.

Lemma transformInkAnnotation_eq (a : PdfInkAnnoObject) (sp tp : PdfPageObject) :
  let bound := getRotatedPageSize tp in
  transformInkAnnotation a sp tp =
    ({| ink_base :=
          with_rect (ink_base a) (fst (clipRectToPageBounds (rect (ink_base a)) bound));
        inkList := (λ ink, {| points := clip_points bound (points ink) |}) <$> inkList a |},
     snd (clipRectToPageBounds (rect (ink_base a)) bound)
     || existsb (λ ink, any_point_clipped bound (points ink)) (inkList a)).
Proof.
  intros bound. unfold transformInkAnnotation, transformRectForTargetPage.
  fold bound.
  rewrite (Array_map_raise _
             (λ ink, {| points := clip_points bound (points ink) |})
             (λ ink, any_point_clipped bound (points ink))).
  - simpl. by destruct (snd (clipRectToPageBounds (rect (ink_base a)) bound)).
  - intros ink s. by rewrite Array_map_clip_points.
Qed.

Lemma transformPolygonAnnotation_eq (a : PdfPolygonAnnoObject) (sp tp : PdfPageObject) :
  let bound := getRotatedPageSize tp in
  transformPolygonAnnotation a sp tp =
    ({| polygon_base :=
          with_rect (polygon_base a)
            (fst (clipRectToPageBounds (rect (polygon_base a)) bound));
        polygon_vertices := clip_points bound (polygon_vertices a) |},
     snd (clipRectToPageBounds (rect (polygon_base a)) bound)
     || any_point_clipped bound (polygon_vertices a)).
Proof.
  intros bound.
  unfold transformPolygonAnnotation, transformRectForTargetPage,
    transformPositionForTargetPage.
  fold bound. rewrite Array_map_clip_points. simpl.
  by destruct (snd (clipRectToPageBounds (rect (polygon_base a)) bound)).
Qed.

Lemma transformPolylineAnnotation_eq (a : PdfPolylineAnnoObject) (sp tp : PdfPageObject) :
  let bound := getRotatedPageSize tp in
  transformPolylineAnnotation a sp tp =
    ({| polyline_base :=
          with_rect (polyline_base a)
            (fst (clipRectToPageBounds (rect (polyline_base a)) bound));
        polyline_vertices := clip_points bound (polyline_vertices a) |},
     snd (clipRectToPageBounds (rect (polyline_base a)) bound)
     || any_point_clipped bound (polyline_vertices a)).
Proof.
  intros bound.
  unfold transformPolylineAnnotation, transformRectForTargetPage,
    transformPositionForTargetPage.
  fold bound. rewrite Array_map_clip_points. simpl.
  by destruct (snd (clipRectToPageBounds (rect (polyline_base a)) bound)).
Qed.

Lemma transformLineAnnotation_eq (a : PdfLineAnnoObject) (sp tp : PdfPageObject) :
  let bound := getRotatedPageSize tp in
  transformLineAnnotation a sp tp =
    ({| line_base :=
          with_rect (line_base a) (fst (clipRectToPageBounds (rect (line_base a)) bound));
        linePoints :=
          {| start := fst (clipPositionToPageBounds (start (linePoints a)) bound);
             end_ := fst (clipPositionToPageBounds (end_ (linePoints a)) bound) |} |},
     snd (clipRectToPageBounds (rect (line_base a)) bound)
     || (snd (clipPositionToPageBounds (start (linePoints a)) bound)
         || snd (clipPositionToPageBounds (end_ (linePoints a)) bound))).
Proof.
  intros bound.
  unfold transformLineAnnotation, transformRectForTargetPage,
    transformPositionForTargetPage.
  fold bound. f_equal.
  by destruct (snd (clipRectToPageBounds (rect (line_base a)) bound)),
    (snd (clipPositionToPageBounds (start (linePoints a)) bound)),
    (snd (clipPositionToPageBounds (end_ (linePoints a)) bound)).
Qed.

#[local] Arguments transformInkAnnotation : simpl never.
#[local] Arguments transformPolygonAnnotation : simpl never.
#[local] Arguments transformPolylineAnnotation : simpl never.
#[local] Arguments transformLineAnnotation : simpl never.

Lemma transformAnnotationForTargetPage_eq (a : PdfAnnotationObject)
    (sp tp : PdfPageObject) :
  let bound := getRotatedPageSize tp in
  let rectResult := clipRectToPageBounds (rect (base a)) bound in
  transformAnnotationForTargetPage a sp tp =
    match a with
    | AnnoInk i =>
        (AnnoInk
           {| ink_base := with_rect (ink_base i) (fst rectResult);
              inkList :=
                (λ ink, {| points := clip_points bound (points ink) |}) <$> inkList i |},
         snd rectResult
         || existsb (λ ink, any_point_clipped bound (points ink)) (inkList i))
    | AnnoPolygon p =>
        (AnnoPolygon
           {| polygon_base := with_rect (polygon_base p) (fst rectResult);
              polygon_vertices := clip_points bound (polygon_vertices p) |},
         snd rectResult || any_point_clipped bound (polygon_vertices p))
    | AnnoPolyline p =>
        (AnnoPolyline
           {| polyline_base := with_rect (polyline_base p) (fst rectResult);
              polyline_vertices := clip_points bound (polyline_vertices p) |},
         snd rectResult || any_point_clipped bound (polyline_vertices p))
    | AnnoLine l =>
        (AnnoLine
           {| line_base := with_rect (line_base l) (fst rectResult);
              linePoints :=
                {| start := fst (clipPositionToPageBounds (start (linePoints l)) bound);
                   end_ := fst (clipPositionToPageBounds (end_ (linePoints l)) bound) |} |},
         snd rectResult
         || (snd (clipPositionToPageBounds (start (linePoints l)) bound)
             || snd (clipPositionToPageBounds (end_ (linePoints l)) bound)))
    | AnnoSimple t b =>
        (AnnoSimple t (with_rect b (fst rectResult)), snd rectResult)
    end.
Proof.
  destruct a as [i | p | p | l | t b]; unfold transformAnnotationForTargetPage;
    cbv zeta.
  - by rewrite transformInkAnnotation_eq.
  - by rewrite transformPolygonAnnotation_eq.
  - by rewrite transformPolylineAnnotation_eq.
  - by rewrite transformLineAnnotation_eq.
  - done.
Qed.

(** What the transform leaves of the source: its kind and every shared field
    but the rect. *)
Lemma transform_keeps_kind (a : PdfAnnotationObject) (sp tp : PdfPageObject) :
  let out := fst (transformAnnotationForTargetPage a sp tp) in
  type out = type a ∧
  base out =
    with_rect (base a) (fst (clipRectToPageBounds (rect (base a)) (getRotatedPageSize tp))).
Proof.
  cbv zeta. rewrite transformAnnotationForTargetPage_eq. by destruct a.
Qed.

(** The source page takes no part in the transform. *)
Lemma transform_ignores_sourcePage (a : PdfAnnotationObject)
    (sp1 sp2 tp : PdfPageObject) :
  transformAnnotationForTargetPage a sp1 tp = transformAnnotationForTargetPage a sp2 tp.
Proof. destruct a; reflexivity. Qed.

Lemma clip_points_within (bound : Size) (ps : list Position) :
  (0 ≤ width bound)%Qc → (0 ≤ height bound)%Qc →
  Forall (point_within bound) (clip_points bound ps).
Proof.
  intros HW HH. unfold clip_points. apply Forall_fmap, Forall_forall.
  intros p _. by apply clipPosition_within.
Qed.

Lemma clip_points_inside (bound : Size) (ps : list Position) :
  Forall (point_within bound) ps →
  clip_points bound ps = ps ∧ any_point_clipped bound ps = false.
Proof.
  unfold clip_points, any_point_clipped.
  induction 1 as [| p ps Hp _ [IH1 IH2]]; cbn; [done |].
  rewrite (clipPosition_inside p bound Hp); cbn. by rewrite IH1, IH2.
Qed.

(** Whatever the source geometry, the transformed geometry lies within the
    bounds of a target page of non-negative size. *)
Lemma transform_within (a : PdfAnnotationObject) (sp tp : PdfPageObject) :
  (0 ≤ width (page_size tp))%Qc → (0 ≤ height (page_size tp))%Qc →
  geometry_within (effectiveSize tp) (fst (transformAnnotationForTargetPage a sp tp)).
Proof.
  intros HW HH.
  destruct (effectiveSize_nonneg tp HW HH) as [HW' HH'].
  rewrite <- getRotatedPageSize_effective in *.
  split.
  - destruct (transform_keeps_kind a sp tp) as [_ ->].
    by apply clipRect_within.
  - rewrite transformAnnotationForTargetPage_eq.
    destruct a as [i | p | p | l | t b]; cbn.
    + apply Forall_fmap, Forall_forall. intros ink _; cbn.
      by apply clip_points_within.
    + by apply clip_points_within.
    + by apply clip_points_within.
    + split; by apply clipPosition_within.
    + done.
Qed.

#[local] Arguments clip_points : simpl never.
#[local] Arguments any_point_clipped : simpl never.

Lemma ink_paths_inside (bound : Size) (inks : list PdfInkListObject) :
  Forall (λ ink, Forall (point_within bound) (points ink)) inks →
  (λ ink, {| points := clip_points bound (points ink) |}) <$> inks = inks ∧
  existsb (λ ink, any_point_clipped bound (points ink)) inks = false.
Proof.
  induction 1 as [| [pts] inks Hpts _ [IH1 IH2]]; cbn in *; [done |].
  destruct (clip_points_inside _ _ Hpts) as [-> ->]. by rewrite IH1, IH2.
Qed.

(** Geometry that already lies within the bounds of the target page comes
    back as it is, and unflagged. *)
Lemma transform_inside (a : PdfAnnotationObject) (sp tp : PdfPageObject) :
  geometry_within (getRotatedPageSize tp) a →
  geometry (fst (transformAnnotationForTargetPage a sp tp)) = geometry a ∧
  snd (transformAnnotationForTargetPage a sp tp) = false.
Proof.
  intros [Hrect Hkind]. unfold geometry.
  rewrite transformAnnotationForTargetPage_eq.
  rewrite (clipRect_inside _ _ Hrect).
  destruct a as [i | p | p | l | t b]; cbn in *.
  - by destruct (ink_paths_inside _ _ Hkind) as [-> ->].
  - by destruct (clip_points_inside _ _ Hkind) as [-> ->].
  - by destruct (clip_points_inside _ _ Hkind) as [-> ->].
  - destruct Hkind as [Hs He].
    rewrite (clipPosition_inside _ _ Hs), (clipPosition_inside _ _ He); cbn.
    by destruct (linePoints l).
  - done.
Qed.

(** ** The duplication loop *)

Section DuplicationFacts.

Variable uuid_stream : nat → string.
Variable clock : nat → Date.

Lemma createDuplicateAnnotation_run (src : PdfAnnotationObject)
    (sp tp : PdfPageObject) (w : World) :
  createDuplicateAnnotation uuid_stream clock src sp tp w =
    Returned
      (duplicate_with (uuid_stream (uuid_calls w)) (clock (date_calls w)) src sp tp,
       snd (transformAnnotationForTargetPage src sp tp))
      {| uuid_calls := S (uuid_calls w); date_calls := S (date_calls w);
         console := console w |}.
Proof.
  unfold createDuplicateAnnotation, duplicate_with.
  by destruct (transformAnnotationForTargetPage src sp tp).
Qed.

Lemma eligible_pages_cons (i : Z) (inc : bool) (p : PdfPageObject)
    (pages : list PdfPageObject) :
  eligible_pages i inc (p :: pages) =
    if negb inc && bool_decide (index p = i)
    then eligible_pages i inc pages
    else p :: eligible_pages i inc pages.
Proof.
  unfold eligible_pages. rewrite filter_cons.
  destruct inc; cbn.
  - by rewrite decide_True by auto.
  - case_bool_decide.
    + by rewrite decide_False by (intros [? | ?]; done).
    + by rewrite decide_True by auto.
Qed.

(** The loop visits the eligible pages in order; it cannot throw. *)
Lemma duplicate_loop_run (src : PdfAnnotationObject) (sp : PdfPageObject)
    (inc : bool) (pages : list PdfPageObject)
    (annos : list PdfAnnotationObject) (clipped : list Z) (w : World) :
  let targets := eligible_pages (pageIndex (base src)) inc pages in
  duplicate_loop uuid_stream clock src sp inc pages annos clipped w =
    Returned
      {| annotations := annos ++ duplicates uuid_stream clock w src sp targets;
         clippedPages := clipped ++ (index <$> filter (clips src sp) targets) |}
      (world_after w src sp targets).
Proof.
  cbv zeta. revert annos clipped w.
  induction pages as [| tp pages IH]; intros annos clipped w.
  - cbn. unfold world_after; cbn. rewrite !app_nil_r, !Nat.add_0_r.
    by destruct w.
  - rewrite eligible_pages_cons. cbn [duplicate_loop].
    destruct (negb inc && bool_decide (index tp = pageIndex (base src))); [apply IH |].
    unfold bind at 1. rewrite createDuplicateAnnotation_run.
    set (w1 := {| uuid_calls := S (uuid_calls w); date_calls := S (date_calls w);
                  console := console w |}).
    assert (duplicates uuid_stream clock w src sp
              (tp :: eligible_pages (pageIndex (base src)) inc pages)
            = duplicate_with (uuid_stream (uuid_calls w)) (clock (date_calls w)) src sp tp
              :: duplicates uuid_stream clock w1 src sp
                   (eligible_pages (pageIndex (base src)) inc pages)) as Hdup.
    { unfold duplicates. rewrite imap_cons, !Nat.add_0_r. f_equal.
      apply imap_ext. intros k p _. cbn. by rewrite !Nat.add_succ_r. }
    rewrite Hdup, filter_cons.
    destruct (snd (transformAnnotationForTargetPage src sp tp)) eqn:Hclip.
    + unfold bind, console_warn. rewrite IH.
      rewrite decide_True by done. rewrite <- !app_assoc. cbn.
      f_equal. unfold world_after; cbn.
      rewrite decide_True by done. cbn.
      rewrite <- !app_assoc, !Nat.add_succ_r. done.
    + rewrite IH.
      rewrite decide_False by (unfold clips; congruence).
      rewrite <- !app_assoc. cbn.
      f_equal. unfold world_after; cbn.
      rewrite decide_False by (unfold clips; congruence).
      rewrite !Nat.add_succ_r. done.
Qed.

Lemma find_sourcePage_Some (i : Z) (pages : list PdfPageObject) :
  (∃ p, p ∈ pages ∧ index p = i)
  ↔ ∃ sp, find (λ p, bool_decide (index p = i)) pages = Some sp.
Proof.
  split.
  - intros (p & Hin & Hp).
    destruct (find _ pages) as [sp |] eqn:Hfind; [by exists sp |].
    apply list_elem_of_In in Hin.
    pose proof (find_none _ _ Hfind p Hin) as Hf.
    by apply bool_decide_eq_false in Hf.
  - intros (sp & Hfind). apply find_some in Hfind as [Hin Hf].
    exists sp. split; [by apply list_elem_of_In | by apply bool_decide_eq_true in Hf].
Qed.

Lemma find_sourcePage_None (i : Z) (pages : list PdfPageObject) :
  (¬ ∃ p, p ∈ pages ∧ index p = i)
  ↔ find (λ p, bool_decide (index p = i)) pages = None.
Proof.
  rewrite find_sourcePage_Some.
  destruct (find _ pages) as [sp |]; split; try done.
  - intros H. destruct H. by exists sp.
  - intros _ [sp' ?]. done.
Qed.

(** The whole call, in closed form. *)
Lemma generateDuplicateAnnotations_run (src : PdfAnnotationObject)
    (pages : list PdfPageObject) (options : option DuplicateAnnotationOptions)
    (w : World) :
  let targets :=
    eligible_pages (pageIndex (base src)) (includes_source options) pages in
  generateDuplicateAnnotations uuid_stream clock src pages options w =
    match find (λ p, bool_decide (index p = pageIndex (base src))) pages with
    | None => Thrown (SourcePageNotFound (pageIndex (base src))) w
    | Some sp =>
        Returned
          {| annotations := duplicates uuid_stream clock w src sp targets;
             clippedPages := index <$> filter (clips src sp) targets |}
          (world_after w src sp targets)
    end.
Proof.
  cbv zeta. unfold generateDuplicateAnnotations.
  assert (default false (includeSourcePage (default {| includeSourcePage := None |} options))
          = includes_source options) as -> by (by destruct options).
  destruct (find _ pages) as [sp |]; [| done].
  by rewrite duplicate_loop_run.
Qed.

End DuplicationFacts.

(** ** What a duplicate carries *)

Lemma base_map_base (f : AnnotationBase → AnnotationBase) (a : PdfAnnotationObject) :
  base (map_base f a) = f (base a).
Proof. by destruct a. Qed.

Lemma type_map_base (f : AnnotationBase → AnnotationBase) (a : PdfAnnotationObject) :
  type (map_base f a) = type a.
Proof. by destruct a. Qed.

Lemma kind_geometry_map_base (f : AnnotationBase → AnnotationBase)
    (a : PdfAnnotationObject) :
  kind_geometry (map_base f a) = kind_geometry a.
Proof. by destruct a. Qed.

Lemma duplicate_with_base (i : string) (d : Date) (src : PdfAnnotationObject)
    (sp tp : PdfPageObject) :
  base (duplicate_with i d src sp tp) =
    {| id := i; pageIndex := index tp;
       rect := fst (clipRectToPageBounds (rect (base src)) (getRotatedPageSize tp));
       created := Some d; props := props (base src) |}.
Proof.
  unfold duplicate_with. rewrite base_map_base.
  by destruct (transform_keeps_kind src sp tp) as [_ ->].
Qed.

Lemma duplicate_with_geometry (i : string) (d : Date) (src : PdfAnnotationObject)
    (sp tp : PdfPageObject) :
  geometry (duplicate_with i d src sp tp) =
    geometry (fst (transformAnnotationForTargetPage src sp tp)).
Proof.
  unfold duplicate_with, geometry.
  by rewrite base_map_base, kind_geometry_map_base.
Qed.

Lemma geometry_within_geometry (bound : Size) (a b : PdfAnnotationObject) :
  geometry a = geometry b → geometry_within bound b → geometry_within bound a.
Proof. unfold geometry, geometry_within. by intros [= -> ->]. Qed.


Lemma duplicates_pageIndex (uuid_stream : nat → string) (clock : nat → Date)
    (w : World) (src : PdfAnnotationObject) (sp : PdfPageObject)
    (targets : list PdfPageObject) :
  (λ a, pageIndex (base a)) <$> duplicates uuid_stream clock w src sp targets
  = index <$> targets.
Proof.
  unfold duplicates. rewrite fmap_imap. rewrite <- (imap_const index targets).
  apply imap_ext. intros k p _; cbn. by rewrite duplicate_with_base.
Qed.

Lemma duplicates_id (uuid_stream : nat → string) (clock : nat → Date)
    (w : World) (src : PdfAnnotationObject) (sp : PdfPageObject)
    (targets : list PdfPageObject) :
  (λ a, id (base a)) <$> duplicates uuid_stream clock w src sp targets
  = (λ k, uuid_stream (uuid_calls w + k)%nat) <$> seq 0 (length targets).
Proof.
  unfold duplicates. rewrite fmap_imap.
  rewrite <- (imap_seq_0 targets (λ k, uuid_stream (uuid_calls w + k)%nat)).
  apply imap_ext. intros k p _; cbn. by rewrite duplicate_with_base.
Qed.

(** ** Which pages receive a duplicate *)

Lemma eligible_pages_all (i : Z) (pages : list PdfPageObject) :
  eligible_pages i true pages = pages.
Proof.
  unfold eligible_pages. induction pages as [| p pages IH]; [done |].
  rewrite filter_cons, decide_True by auto. by rewrite IH.
Qed.

Lemma eligible_pages_absent (i : Z) (pages : list PdfPageObject) :
  i ∉ index <$> pages → eligible_pages i false pages = pages.
Proof.
  unfold eligible_pages. induction pages as [| p pages IH]; [done |].
  rewrite fmap_cons, not_elem_of_cons. intros [Hp Hps].
  rewrite filter_cons, decide_True by auto. by rewrite IH.
Qed.

Lemma eligible_pages_length (i : Z) (pages : list PdfPageObject) :
  NoDup (index <$> pages) → i ∈ index <$> pages →
  length (eligible_pages i false pages) = (length pages - 1)%nat.
Proof.
  induction pages as [| p pages IH]; [by intros _ ?%elem_of_nil |].
  rewrite fmap_cons, NoDup_cons, elem_of_cons. intros [Hp Hnd] Hi.
  rewrite eligible_pages_cons; cbn.
  case_bool_decide as Hpi.
  - subst i. rewrite eligible_pages_absent by done. lia.
  - destruct Hi as [-> | Hi]; [done |]. cbn. rewrite IH by done.
    destruct pages; [by apply elem_of_nil in Hi | cbn; lia].
Qed.

Lemma sublist_fmap {A B} (f : A → B) (l1 l2 : list A) :
  l1 `sublist_of` l2 → (f <$> l1) `sublist_of` (f <$> l2).
Proof.
  induction 1; cbn; [constructor | by apply sublist_skip | by apply sublist_cons].
Qed.

Lemma eligible_pages_sublist (i : Z) (inc : bool) (pages : list PdfPageObject) :
  eligible_pages i inc pages `sublist_of` pages.
Proof. apply sublist_filter. Qed.

Lemma source_page_index (src : PdfAnnotationObject) (pages : list PdfPageObject) :
  (∃ p, p ∈ pages ∧ index p = pageIndex (base src))
  ↔ pageIndex (base src) ∈ index <$> pages.
Proof.
  split.
  - intros (p & Hin & <-). by apply list_elem_of_fmap_2.
  - intros (p & -> & Hin)%list_elem_of_fmap. eauto.
Qed.

(** ** The claims on the duplication *)



(** C2. When a page carries the page index of the source annotation and the
    page indexes are unique, the call returns as many annotations as there
    are pages, less one unless [includeSourcePage] is true; the page indexes
    of the annotations are, in order, the indexes of the eligible pages; and
    on a single page with [includeSourcePage] unset both lists of the result
    are empty. *)
Theorem generateDuplicateAnnotations_one_per_eligible_page
    (uuid_stream : nat → string) (clock : nat → Date)
    (src : PdfAnnotationObject) (pages : list PdfPageObject)
    (options : option DuplicateAnnotationOptions) (w : World) :
  (∃ p, p ∈ pages ∧ index p = pageIndex (base src)) →
  NoDup (index <$> pages) →
  ∃ res w',
    generateDuplicateAnnotations uuid_stream clock src pages options w
      = Returned res w' ∧
    length (annotations res) =
      (if includes_source options then length pages else (length pages - 1)%nat) ∧
    (λ a, pageIndex (base a)) <$> annotations res =
      index <$> eligible_pages (pageIndex (base src)) (includes_source options) pages ∧
    (∀ k a, annotations res !! k = Some a →
       ∃ targetPage,
         eligible_pages (pageIndex (base src)) (includes_source options) pages !! k
           = Some targetPage ∧
         pageIndex (base a) = index targetPage) ∧
    (length pages = 1%nat → includes_source options = false →
     annotations res = [] ∧ clippedPages res = []).
Proof.
  intros Hsrc Hnd. rewrite generateDuplicateAnnotations_run.
  pose proof Hsrc as [sp ->]%find_sourcePage_Some.
  apply source_page_index in Hsrc.
  assert (length (eligible_pages (pageIndex (base src)) (includes_source options) pages)
          = if includes_source options then length pages else (length pages - 1)%nat)
    as Hlen.
  { destruct (includes_source options).
    - by rewrite eligible_pages_all.
    - by apply eligible_pages_length. }
  eexists _, _. split; [done |]. cbn. split; [| split; [| split]].
  - unfold duplicates. by rewrite length_imap.
  - apply duplicates_pageIndex.
  - intros k a Ha. unfold duplicates in Ha.
    apply list_lookup_imap_Some in Ha as (tp & Htp & ->).
    exists tp. split; [done | by rewrite duplicate_with_base].
  - intros Hone Hinc. rewrite Hinc, Hone in Hlen.
    apply nil_length_inv in Hlen. rewrite Hinc, Hlen. done.
Qed.

(** The first test of the suite: four pages, the source on page 0. *)
Lemma generateDuplicateAnnotations_one_per_eligible_page_witness :
  ∃ res w',
    generateDuplicateAnnotations example_uuids example_clock
      (createSquareAnnotation "anno-1" 0 100 100 50 50)
      [createMockPage 0 612 792 Degree0; createMockPage 1 612 792 Degree0;
       createMockPage 2 612 792 Degree0; createMockPage 3 612 792 Degree0]
      None initial_world = Returned res w' ∧
    length (annotations res) = 3%nat ∧
    (λ a, pageIndex (base a)) <$> annotations res = [1; 2; 3]%Z.
Proof.
  destruct (generateDuplicateAnnotations_one_per_eligible_page
              example_uuids example_clock
              (createSquareAnnotation "anno-1" 0 100 100 50 50)
              [createMockPage 0 612 792 Degree0; createMockPage 1 612 792 Degree0;
               createMockPage 2 612 792 Degree0; createMockPage 3 612 792 Degree0]
              None initial_world)
    as (res & w' & Hrun & Hlen & Hidx & _).
  - exists (createMockPage 0 612 792 Degree0). split; [apply list_elem_of_here | done].
  - apply (bool_decide_unpack _). by vm_compute.
  - exists res, w'. split; [exact Hrun |]. split; [exact Hlen | exact Hidx].
Defined.

Lemma SourcePageNotFound_inj (i j : Z) :
  SourcePageNotFound i = SourcePageNotFound j → i = j.
Proof.
  unfold SourcePageNotFound. intros [= H].
  apply (inj (String.app _)) in H. by apply (inj pretty) in H.
Qed.

(** C4. The call throws exactly when no page carries the page index of the
    source annotation.  What it throws then is the one error of the module,
    whose message ends in that page index (so that two such errors are equal
    only for equal indexes), and it throws it before anything else happens:
    no identifier or date has been drawn and nothing has been written to the
    console.  When a page carries the index, the call returns. *)
Theorem generateDuplicateAnnotations_throws_iff_source_page_missing
    (uuid_stream : nat → string) (clock : nat → Date)
    (src : PdfAnnotationObject) (pages : list PdfPageObject)
    (options : option DuplicateAnnotationOptions) (w : World) :
  let outcome := generateDuplicateAnnotations uuid_stream clock src pages options w in
  ((∃ e w', outcome = Thrown e w')
   ↔ ¬ ∃ p, p ∈ pages ∧ index p = pageIndex (base src)) ∧
  (∀ e w', outcome = Thrown e w' →
     e = Error ("Source page not found for annotation on page "
                +:+ pretty (pageIndex (base src))) ∧
     e = SourcePageNotFound (pageIndex (base src)) ∧
     w' = w) ∧
  ((∃ p, p ∈ pages ∧ index p = pageIndex (base src)) →
   ∃ res w', outcome = Returned res w') ∧
  (∀ i j, SourcePageNotFound i = SourcePageNotFound j → i = j).
Proof.
  cbv zeta. rewrite generateDuplicateAnnotations_run.
  rewrite find_sourcePage_None, find_sourcePage_Some.
  destruct (find _ pages) as [sp |]; (split; [| split; [| split]]).
  - split; [by intros (e & w' & ?) | done].
  - done.
  - intros _. by eexists _, _.
  - apply SourcePageNotFound_inj.
  - split; [done | by eexists _, _].
  - by intros e w' [= <- <-].
  - by intros [sp ?].
  - apply SourcePageNotFound_inj.
Qed.

(** The test of the missing source page: pages 1 and 2, an annotation of
    page 0. *)
Lemma generateDuplicateAnnotations_throws_witness :
  generateDuplicateAnnotations example_uuids example_clock
    (createSquareAnnotation "anno" 0 100 100 50 50)
    [createMockPage 1 612 792 Degree0; createMockPage 2 612 792 Degree0]
    None initial_world
  = Thrown (Error "Source page not found for annotation on page 0") initial_world.
Proof.
  destruct (generateDuplicateAnnotations_throws_iff_source_page_missing
              example_uuids example_clock
              (createSquareAnnotation "anno" 0 100 100 50 50)
              [createMockPage 1 612 792 Degree0; createMockPage 2 612 792 Degree0]
              None initial_world) as ([_ Hthrow] & Hwhat & _).
  destruct Hthrow as (e & w' & Hrun).
  - intros (p & Hin & Hp). revert Hp.
    repeat (apply elem_of_cons in Hin as [-> | Hin]; [done |]).
    by apply elem_of_nil in Hin.
  - destruct (Hwhat e w' Hrun) as (-> & _ & ->). exact Hrun.
Defined.

Lemma returned_annotations (uuid_stream : nat → string) (clock : nat → Date)
    (src : PdfAnnotationObject) (pages : list PdfPageObject)
    (options : option DuplicateAnnotationOptions) (w : World)
    (res : DuplicateAnnotationResult) (w' : World) :
  generateDuplicateAnnotations uuid_stream clock src pages options w = Returned res w' →
  ∃ sp,
    find (λ p, bool_decide (index p = pageIndex (base src))) pages = Some sp ∧
    annotations res =
      duplicates uuid_stream clock w src sp
        (eligible_pages (pageIndex (base src)) (includes_source options) pages) ∧
    clippedPages res =
      index <$> filter (clips src sp)
                  (eligible_pages (pageIndex (base src)) (includes_source options) pages).
Proof.
  rewrite generateDuplicateAnnotations_run.
  destruct (find _ pages) as [sp |]; [| done].
  intros [= <- <-]. by exists sp.
Qed.

(** C7. Let the identifiers that [uuidV4] hands out be pairwise distinct and
    distinct from the id of the source annotation.  Then the ids of the
    annotations a call returns are pairwise distinct, none of them is the id
    of the source, and the k-th of them is the identifier drawn by the k-th
    call of [uuidV4] the run makes. *)
Theorem generateDuplicateAnnotations_fresh_ids
    (uuid_stream : nat → string) (clock : nat → Date)
    (src : PdfAnnotationObject) (pages : list PdfPageObject)
    (options : option DuplicateAnnotationOptions) (w : World)
    (res : DuplicateAnnotationResult) (w' : World) :
  (∀ m n, uuid_stream m = uuid_stream n → m = n) →
  (∀ n, uuid_stream n ≠ id (base src)) →
  generateDuplicateAnnotations uuid_stream clock src pages options w = Returned res w' →
  NoDup ((λ a, id (base a)) <$> annotations res) ∧
  Forall (λ a, id (base a) ≠ id (base src)) (annotations res) ∧
  (∀ k a, annotations res !! k = Some a →
     id (base a) = uuid_stream (uuid_calls w + k)%nat).
Proof.
  intros Hinj Hfresh (sp & _ & Hres & _)%returned_annotations.
  assert (∀ k a, annotations res !! k = Some a →
            id (base a) = uuid_stream (uuid_calls w + k)%nat) as Hkth.
  { intros k a. rewrite Hres. unfold duplicates.
    intros (tp & _ & ->)%list_lookup_imap_Some. by rewrite duplicate_with_base. }
  split; [| split; [| done]].
  - rewrite Hres, duplicates_id.
    apply NoDup_fmap_2_strong; [| apply NoDup_seq].
    intros m n _ _ Heq. apply Hinj in Heq. lia.
  - apply Forall_forall. intros a (k & Hk)%list_elem_of_lookup.
    rewrite (Hkth k a Hk). apply Hfresh.
Qed.

Lemma example_uuids_inj (m n : nat) : example_uuids m = example_uuids n → m = n.
Proof.
  unfold example_uuids. intros H.
  apply (inj (String.app _)) in H. by apply (inj pretty) in H.
Qed.

(** The test of the unique ids: three pages, the source ["original-id"] on
    page 0. *)
Lemma generateDuplicateAnnotations_fresh_ids_witness :
  ∃ res w',
    generateDuplicateAnnotations example_uuids example_clock
      (createSquareAnnotation "original-id" 0 100 100 50 50)
      [createMockPage 0 612 792 Degree0; createMockPage 1 612 792 Degree0;
       createMockPage 2 612 792 Degree0]
      None initial_world = Returned res w' ∧
    (λ a, id (base a)) <$> annotations res = ["uuid-0"; "uuid-1"] ∧
    NoDup ((λ a, id (base a)) <$> annotations res) ∧
    Forall (λ a, id (base a) ≠ "original-id") (annotations res).
Proof.
  destruct (generateDuplicateAnnotations _ _ _ _ _ _) as [res w' | e w'] eqn:Hrun;
    [| by vm_compute in Hrun].
  exists res, w'. split; [done |].
  destruct (generateDuplicateAnnotations_fresh_ids example_uuids example_clock
              (createSquareAnnotation "original-id" 0 100 100 50 50)
              [createMockPage 0 612 792 Degree0; createMockPage 1 612 792 Degree0;
               createMockPage 2 612 792 Degree0]
              None initial_world res w') as (Hnd & Hne & _).
  - apply example_uuids_inj.
  - intros n. unfold example_uuids. cbn. intros [=].
  - exact Hrun.
  - split; [| split; [exact Hnd | exact Hne]].
    vm_compute in Hrun. by injection Hrun as <- <-.
Defined.

(** C9. Every annotation a call returns has the type of the source
    annotation and, name by name, the properties of the source that are
    neither geometry ([rect], [inkList], [vertices], [linePoints]) nor
    reassigned ([id], [pageIndex], [created]): color, strokeColor,
    strokeWidth, strokeStyle, opacity, flags, icon and whatever else the
    source carries. *)
Theorem generateDuplicateAnnotations_frame
    (uuid_stream : nat → string) (clock : nat → Date)
    (src : PdfAnnotationObject) (pages : list PdfPageObject)
    (options : option DuplicateAnnotationOptions) (w : World)
    (res : DuplicateAnnotationResult) (w' : World) :
  generateDuplicateAnnotations uuid_stream clock src pages options w = Returned res w' →
  Forall (λ a, type a = type src ∧
               props (base a) = props (base src) ∧
               ∀ name : string, props (base a) !! name = props (base src) !! name)
    (annotations res).
Proof.
  intros (sp & _ & Hres & _)%returned_annotations.
  apply Forall_forall. intros a (k & Hk)%list_elem_of_lookup.
  rewrite Hres in Hk. unfold duplicates in Hk.
  apply list_lookup_imap_Some in Hk as (tp & _ & ->).
  rewrite duplicate_with_base; cbn. unfold duplicate_with.
  rewrite type_map_base.
  by destruct (transform_keeps_kind src sp tp) as [-> _].
Qed.

(** The test of the preserved properties, on an ink annotation clipped by a
    small page. *)
Lemma generateDuplicateAnnotations_frame_witness :
  ∃ res w',
    generateDuplicateAnnotations example_uuids example_clock
      (createInkAnnotation "ink-1" 0 80 80 40 40)
      [createMockPage 0 612 792 Degree0; createMockPage 1 100 100 Degree0]
      None initial_world = Returned res w' ∧
    clippedPages res = [1%Z] ∧
    Forall (λ a, type a = INK ∧
                 props (base a) !! "color" = Some (JsString "#0000FF") ∧
                 props (base a) !! "strokeWidth" = Some (JsNumber (num 2)))
      (annotations res).
Proof.
  destruct (generateDuplicateAnnotations _ _ _ _ _ _) as [res w' | e w'] eqn:Hrun;
    [| by vm_compute in Hrun].
  exists res, w'. split; [done |]. split.
  - vm_compute in Hrun. by injection Hrun as <- <-.
  - eapply Forall_impl.
    + apply (generateDuplicateAnnotations_frame example_uuids example_clock
               (createInkAnnotation "ink-1" 0 80 80 40 40)
               [createMockPage 0 612 792 Degree0; createMockPage 1 100 100 Degree0]
               None initial_world res w' Hrun).
    + intros a (Htype & _ & Hprops). rewrite Htype, !Hprops. by vm_compute.
Defined.

(** ** The clipped pages *)

Lemma filter_none {A} (P : A → Prop) `{!∀ x, Decision (P x)} (l : list A) :
  (∀ x, x ∈ l → ¬ P x) → filter P l = [].
Proof.
  induction l as [| y l IH]; intros Hall; [done |].
  rewrite filter_cons_False by (apply Hall, list_elem_of_here).
  apply IH. intros x Hx. by apply Hall, list_elem_of_further.
Qed.

(** In a list without two elements of the same key, an element is the only
    one of its key. *)
Lemma filter_unique {A} (g : A → Z) (l : list A) (a : A) :
  NoDup (g <$> l) → a ∈ l → filter (λ b, g b = g a) l = [a].
Proof.
  induction l as [| y l IH]; [by intros _ ?%elem_of_nil |].
  rewrite fmap_cons, NoDup_cons, elem_of_cons. intros [Hy Hnd] [-> | Ha].
  - rewrite filter_cons_True by done. f_equal.
    apply filter_none. intros x Hx Heq. apply Hy. rewrite <- Heq.
    by apply list_elem_of_fmap_2.
  - rewrite filter_cons_False; [by apply IH |].
    intros Heq. apply Hy. rewrite Heq. by apply list_elem_of_fmap_2.
Qed.

(** C10. When the page indexes are unique, the clipped pages of a result
    hold no index twice, hold their indexes in the order of the pages, and
    each of them is the index of a page for which the transform reported
    clipping and the page index of exactly one returned annotation, the one
    with the geometry the transform produced for that page. *)
Theorem generateDuplicateAnnotations_clippedPages
    (uuid_stream : nat → string) (clock : nat → Date)
    (src : PdfAnnotationObject) (pages : list PdfPageObject)
    (options : option DuplicateAnnotationOptions) (w : World)
    (res : DuplicateAnnotationResult) (w' : World) :
  NoDup (index <$> pages) →
  generateDuplicateAnnotations uuid_stream clock src pages options w = Returned res w' →
  NoDup (clippedPages res) ∧
  clippedPages res `sublist_of` (index <$> pages) ∧
  ∀ i, i ∈ clippedPages res →
    ∃ sourcePage targetPage a,
      find (λ p, bool_decide (index p = pageIndex (base src))) pages = Some sourcePage ∧
      targetPage ∈ pages ∧ index targetPage = i ∧
      snd (transformAnnotationForTargetPage src sourcePage targetPage) = true ∧
      filter (λ b, pageIndex (base b) = i) (annotations res) = [a] ∧
      geometry a =
        geometry (fst (transformAnnotationForTargetPage src sourcePage targetPage)).
Proof.
  intros Hnd (sp & Hfind & Hannos & Hclipped)%returned_annotations.
  set (targets := eligible_pages (pageIndex (base src)) (includes_source options) pages)
    in *.
  assert (targets `sublist_of` pages) as Htargets by apply eligible_pages_sublist.
  assert (clippedPages res `sublist_of` (index <$> pages)) as Hsub.
  { rewrite Hclipped. apply sublist_fmap.
    etransitivity; [apply sublist_filter | done]. }
  split; [by eapply sublist_NoDup | split; [done |]].
  intros i Hi. rewrite Hclipped in Hi.
  apply list_elem_of_fmap in Hi as (tp & -> & [Hclips Htp]%list_elem_of_filter).
  pose proof Htp as [k Hk]%list_elem_of_lookup.
  set (a := duplicate_with (uuid_stream (uuid_calls w + k)%nat)
              (clock (date_calls w + k)%nat) src sp tp).
  assert (annotations res !! k = Some a) as Ha.
  { rewrite Hannos. unfold duplicates. by rewrite list_lookup_imap, Hk. }
  assert (pageIndex (base a) = index tp) as Hidx
    by (unfold a; by rewrite duplicate_with_base).
  exists sp, tp, a. repeat split.
  - done.
  - by eapply elem_of_sublist.
  - done.
  - rewrite <- Hidx.
    apply (filter_unique (λ b, pageIndex (base b))).
    + rewrite Hannos, duplicates_pageIndex.
      eapply sublist_NoDup; [done | by apply sublist_fmap].
    + by eapply list_elem_of_lookup_2.
  - apply duplicate_with_geometry.
Qed.

(** The test of the smaller target page: the square (400, 500, 100, 100) of
    page 0 is clipped on the 300 x 400 page 1. *)
Lemma generateDuplicateAnnotations_clippedPages_witness :
  ∃ res w',
    generateDuplicateAnnotations example_uuids example_clock
      (createSquareAnnotation "anno-1" 0 400 500 100 100)
      [createMockPage 0 612 792 Degree0; createMockPage 1 300 400 Degree0]
      None initial_world = Returned res w' ∧
    clippedPages res = [1%Z] ∧
    NoDup (clippedPages res) ∧
    clippedPages res `sublist_of` [0; 1]%Z.
Proof.
  destruct (generateDuplicateAnnotations _ _ _ _ _ _) as [res w' | e w'] eqn:Hrun;
    [| by vm_compute in Hrun].
  exists res, w'. split; [done |].
  destruct (generateDuplicateAnnotations_clippedPages example_uuids example_clock
              (createSquareAnnotation "anno-1" 0 400 500 100 100)
              [createMockPage 0 612 792 Degree0; createMockPage 1 300 400 Degree0]
              None initial_world res w') as (Hnd & Hsub & _).
  - apply (bool_decide_unpack _). by vm_compute.
  - exact Hrun.
  - split; [| split; [exact Hnd | exact Hsub]].
    vm_compute in Hrun. by injection Hrun as <- <-.
Defined.

(** ** The source page *)

Lemma differ_only_at_source_indexes (i : Z) (pages1 pages2 : list PdfPageObject) :
  differ_only_at_source i pages1 pages2 → index <$> pages1 = index <$> pages2.
Proof. induction 1 as [| p q ps qs [Hpq _] _ IH]; cbn; congruence. Qed.

Lemma differ_only_at_source_eligible (i : Z) (pages1 pages2 : list PdfPageObject) :
  differ_only_at_source i pages1 pages2 →
  eligible_pages i false pages1 = eligible_pages i false pages2.
Proof.
  induction 1 as [| p q ps qs [Hpq Heq] _ IH]; [done |].
  rewrite !eligible_pages_cons, <- Hpq, IH. cbn.
  case_bool_decide; [done |]. by rewrite Heq.
Qed.

Lemma duplicates_ignore_sourcePage (uuid_stream : nat → string) (clock : nat → Date)
    (w : World) (src : PdfAnnotationObject) (sp1 sp2 : PdfPageObject)
    (targets : list PdfPageObject) :
  duplicates uuid_stream clock w src sp1 targets
  = duplicates uuid_stream clock w src sp2 targets ∧
  filter (clips src sp1) targets = filter (clips src sp2) targets.
Proof.
  split.
  - apply imap_ext. intros k tp _. unfold duplicate_with.
    by rewrite (transform_ignores_sourcePage src sp1 sp2 tp).
  - apply list_filter_iff. intros tp. unfold clips.
    by rewrite (transform_ignores_sourcePage src sp1 sp2 tp).
Qed.

(** C8, as stated, fails when the source page is itself a target: with
    [includeSourcePage] set, the duplicate made for page 0 of the square
    (400, 500, 100, 100) is the square itself when page 0 measures
    612 x 792, and is clipped to nothing when page 0 measures 300 x 400;
    the two calls differ in nothing but that size. *)
Lemma generateDuplicateAnnotations_included_source_page_matters :
  let src := createSquareAnnotation "anno-1" 0 400 500 100 100 in
  let options := Some {| includeSourcePage := Some true |} in
  let pages1 := [createMockPage 0 612 792 Degree0; createMockPage 1 612 792 Degree0] in
  let pages2 := [createMockPage 0 300 400 Degree0; createMockPage 1 612 792 Degree0] in
  differ_only_at_source 0 pages1 pages2 ∧
  ∃ res1 w1 res2 w2,
    generateDuplicateAnnotations example_uuids example_clock src pages1 options
      initial_world = Returned res1 w1 ∧
    generateDuplicateAnnotations example_uuids example_clock src pages2 options
      initial_world = Returned res2 w2 ∧
    geometry <$> annotations res1 =
      [(mkRect 400 500 100 100, RectOnly); (mkRect 400 500 100 100, RectOnly)] ∧
    geometry <$> annotations res2 =
      [(mkRect 300 400 0 0, RectOnly); (mkRect 400 500 100 100, RectOnly)] ∧
    clippedPages res1 = [] ∧
    clippedPages res2 = [0%Z].
Proof.
  cbv zeta. split.
  - repeat constructor; done.
  - eexists _, _, _, _. split; [by vm_compute |]. split; [by vm_compute |].
    repeat split; by vm_compute.
Qed.

(** C8, amended.  Let two calls differ only in the size and the rotation of
    the page that carries the page index of the source annotation, and let
    [includeSourcePage] be false or absent.  Then the two calls have the
    same outcome: the same annotations (geometry included) and the same
    clipped pages.  And whatever the options, the source page handed to the
    shape transform and to [createDuplicateAnnotation] has no influence on
    what they return. *)
Theorem source_page_geometry_has_no_influence
    (uuid_stream : nat → string) (clock : nat → Date)
    (src : PdfAnnotationObject) :
  (∀ (pages1 pages2 : list PdfPageObject)
     (options : option DuplicateAnnotationOptions) (w : World),
     includes_source options = false →
     differ_only_at_source (pageIndex (base src)) pages1 pages2 →
     generateDuplicateAnnotations uuid_stream clock src pages1 options w
     = generateDuplicateAnnotations uuid_stream clock src pages2 options w) ∧
  (∀ sourcePage1 sourcePage2 targetPage : PdfPageObject,
     transformAnnotationForTargetPage src sourcePage1 targetPage
     = transformAnnotationForTargetPage src sourcePage2 targetPage) ∧
  (∀ (sourcePage1 sourcePage2 targetPage : PdfPageObject) (w : World),
     createDuplicateAnnotation uuid_stream clock src sourcePage1 targetPage w
     = createDuplicateAnnotation uuid_stream clock src sourcePage2 targetPage w).
Proof.
  split; [| split].
  - intros pages1 pages2 options w Hinc Hdiff.
    rewrite !generateDuplicateAnnotations_run, Hinc.
    rewrite <- (differ_only_at_source_eligible _ _ _ Hdiff).
    pose proof (differ_only_at_source_indexes _ _ _ Hdiff) as Hidx.
    destruct (find _ pages1) as [sp1 |] eqn:H1;
      destruct (find _ pages2) as [sp2 |] eqn:H2.
    + destruct (duplicates_ignore_sourcePage uuid_stream clock w src sp1 sp2
                  (eligible_pages (pageIndex (base src)) false pages1)) as [Hd Hf].
      unfold world_after. by rewrite Hd, Hf.
    + apply find_sourcePage_None in H2. destruct H2.
      apply source_page_index. rewrite <- Hidx. apply source_page_index.
      apply find_sourcePage_Some. by exists sp1.
    + apply find_sourcePage_None in H1. destruct H1.
      apply source_page_index. rewrite Hidx. apply source_page_index.
      apply find_sourcePage_Some. by exists sp2.
    + done.
  - apply transform_ignores_sourcePage.
  - intros sp1 sp2 tp w. rewrite !createDuplicateAnnotation_run.
    unfold duplicate_with. by rewrite (transform_ignores_sourcePage src sp1 sp2 tp).
Qed.

(** The two calls of the counterexample, with [includeSourcePage] left out:
    one and the same outcome. *)
Lemma source_page_geometry_has_no_influence_witness :
  generateDuplicateAnnotations example_uuids example_clock
    (createSquareAnnotation "anno-1" 0 400 500 100 100)
    [createMockPage 0 612 792 Degree0; createMockPage 1 612 792 Degree0]
    None initial_world
  = generateDuplicateAnnotations example_uuids example_clock
      (createSquareAnnotation "anno-1" 0 400 500 100 100)
      [createMockPage 0 300 400 Degree0; createMockPage 1 612 792 Degree0]
      None initial_world.
Proof.
  apply (proj1 (source_page_geometry_has_no_influence example_uuids example_clock
                  (createSquareAnnotation "anno-1" 0 400 500 100 100))).
  - reflexivity.
  - repeat constructor; done.
Defined.

(** ** Targets that contain the source geometry *)

Lemma point_within_mono (b1 b2 : Size) (p : Position) :
  (width b1 ≤ width b2)%Qc → (height b1 ≤ height b2)%Qc →
  point_within b1 p → point_within b2 p.
Proof. unfold point_within. intros HW HH [[? ?] [? ?]]. repeat split; qc_lra. Qed.

Lemma geometry_within_mono (b1 b2 : Size) (a : PdfAnnotationObject) :
  (width b1 ≤ width b2)%Qc → (height b1 ≤ height b2)%Qc →
  geometry_within b1 a → geometry_within b2 a.
Proof.
  intros HW HH [Hrect Hkind]. split.
  - destruct Hrect as (? & ? & ? & ? & ? & ?).
    unfold rect_within. repeat split; qc_lra.
  - destruct (kind_geometry a) as [inks | vs | l |]; cbn in *.
    + eapply Forall_impl; [exact Hkind |]. intros ink Hink; cbn in *.
      eapply Forall_impl; [exact Hink |]. intros p. by apply point_within_mono.
    + eapply Forall_impl; [exact Hkind |]. intros p. by apply point_within_mono.
    + destruct Hkind. split; by eapply point_within_mono.
    + done.
Qed.

(** C6, as stated, fails for a source annotation that overhangs its own
    page: the square (700, 100, 50, 50) of a 612 x 792 page, duplicated to
    an unrotated page of the same size, is moved to the right edge, loses
    its width and is reported as clipped. *)
Lemma createDuplicateAnnotation_clips_overhanging_source :
  let src := createSquareAnnotation "anno" 0 700 100 50 50 in
  let sourcePage := createMockPage 0 612 792 Degree0 in
  let targetPage := createMockPage 1 612 792 Degree0 in
  page_size targetPage = page_size sourcePage ∧
  rotation targetPage = Degree0 ∧
  ∃ dup w',
    createDuplicateAnnotation example_uuids example_clock src sourcePage targetPage
      initial_world = Returned (dup, true) w' ∧
    geometry dup = (mkRect 612 100 0 50, RectOnly) ∧
    geometry dup ≠ geometry src.
Proof.
  cbv zeta. split; [done | split; [done |]].
  eexists _, _. split; [by vm_compute |].
  split; [by vm_compute |]. vm_compute. intros [=].
Qed.

(** C6, amended.  Let the geometry of the source annotation lie within the
    size of its source page (the rect starts at non-negative coordinates,
    has non-negative width and height and ends within the page; every ink
    point, vertex and line endpoint lies on the page), and let the target
    page be unrotated and at least as wide and as high as the source page,
    in particular of the same size.  Then [createDuplicateAnnotation]
    returns a duplicate with the rect, ink points, vertices and line
    endpoints of the source and reports no clipping, and a call of
    [generateDuplicateAnnotations] with that source page does not count the
    target among the pages it pushes to [clippedPages].  A rect of width and
    height 0 is a case of it. *)
Theorem createDuplicateAnnotation_keeps_contained_geometry
    (uuid_stream : nat → string) (clock : nat → Date)
    (src : PdfAnnotationObject) (sourcePage targetPage : PdfPageObject) (w : World) :
  rotation targetPage = Degree0 →
  (width (page_size sourcePage) ≤ width (page_size targetPage))%Qc →
  (height (page_size sourcePage) ≤ height (page_size targetPage))%Qc →
  geometry_within (page_size sourcePage) src →
  (∃ dup w',
     createDuplicateAnnotation uuid_stream clock src sourcePage targetPage w
       = Returned (dup, false) w' ∧
     geometry dup = geometry src) ∧
  (∀ (pages : list PdfPageObject) (options : option DuplicateAnnotationOptions)
     (w0 : World) (res : DuplicateAnnotationResult) (w1 : World),
     find (λ p, bool_decide (index p = pageIndex (base src))) pages = Some sourcePage →
     generateDuplicateAnnotations uuid_stream clock src pages options w0
       = Returned res w1 →
     let targets :=
       eligible_pages (pageIndex (base src)) (includes_source options) pages in
     clippedPages res = index <$> filter (clips src sourcePage) targets ∧
     targetPage ∉ filter (clips src sourcePage) targets).
Proof.
  intros Hrot HW HH Hin.
  assert (geometry_within (getRotatedPageSize targetPage) src) as Hin'.
  { rewrite getRotatedPageSize_effective. unfold effectiveSize. rewrite Hrot.
    by eapply geometry_within_mono. }
  destruct (transform_inside src sourcePage targetPage Hin') as [Hgeo Hflag].
  split.
  - rewrite createDuplicateAnnotation_run, Hflag. eexists _, _. split; [done |].
    by rewrite duplicate_with_geometry.
  - intros pages options w0 res w1 Hfind Hrun.
    apply returned_annotations in Hrun as (sp & Hfind' & _ & Hclipped).
    rewrite Hfind in Hfind'. injection Hfind' as <-.
    split; [done |].
    intros [Hclips _]%list_elem_of_filter. unfold clips in Hclips. congruence.
Qed.

(** The tests of the annotation at the page edge and of the zero-size
    annotation: both come back with the geometry of the source, unclipped. *)
Lemma createDuplicateAnnotation_keeps_contained_geometry_witness :
  (∃ dup w',
     createDuplicateAnnotation example_uuids example_clock
       (createSquareAnnotation "anno" 0 562 742 50 50)
       (createMockPage 0 612 792 Degree0) (createMockPage 1 612 792 Degree0)
       initial_world = Returned (dup, false) w' ∧
     geometry dup = (mkRect 562 742 50 50, RectOnly)) ∧
  (∃ dup w',
     createDuplicateAnnotation example_uuids example_clock
       (createSquareAnnotation "anno" 0 100 100 0 0)
       (createMockPage 0 612 792 Degree0) (createMockPage 1 1000 1000 Degree0)
       initial_world = Returned (dup, false) w' ∧
     geometry dup = (mkRect 100 100 0 0, RectOnly)).
Proof.
  split.
  - apply (createDuplicateAnnotation_keeps_contained_geometry
             example_uuids example_clock
             (createSquareAnnotation "anno" 0 562 742 50 50)
             (createMockPage 0 612 792 Degree0) (createMockPage 1 612 792 Degree0)
             initial_world); by vm_compute.
  - apply (createDuplicateAnnotation_keeps_contained_geometry
             example_uuids example_clock
             (createSquareAnnotation "anno" 0 100 100 0 0)
             (createMockPage 0 612 792 Degree0) (createMockPage 1 1000 1000 Degree0)
             initial_world); by vm_compute.
Defined.

(** * Further properties *)

(** ** The bounds clipper, on any input *)

(** One axis of [clipRectToPageBounds]: the clamped origin [c] and the
    extent [s] left from it. *)
Lemma clip_axis_twice (v w W : number) :
  let c := clamp v 0 W in
  let s := Math_max 0 (Math_min w (W - c)) in
  clamp c 0 W = c ∧ Math_max 0 (Math_min s (W - c)) = s ∧
  ((0 ≤ W)%Qc → Math_min s (W - c) = s).
Proof. cbv zeta. min_max_cases; repeat split; qc_lra. Qed.

Lemma clip_axis_sign (v w W : number) :
  let c := clamp v 0 W in
  let s := Math_max 0 (Math_min w (W - c)) in
  (0 ≤ c)%Qc ∧ (0 ≤ s)%Qc ∧ (s ≤ Math_max 0 w)%Qc.
Proof. cbv zeta. min_max_cases; repeat split; qc_lra. Qed.

Lemma clip_axis_before (v w W : number) :
  (v < 0)%Qc → (0 ≤ W)%Qc →
  clamp v 0 W = 0%Qc ∧
  Math_max 0 (Math_min w (W - clamp v 0 W)) = Math_max 0 (Math_min w W) ∧
  ((0 ≤ w)%Qc → (w ≤ W)%Qc → Math_max 0 (Math_min w (W - clamp v 0 W)) = w).
Proof. intros Hv HW. min_max_cases; repeat split; qc_lra. Qed.


(** X1. Whatever the rect and whatever the bound, negative ones included,
    the rect that [clipRectToPageBounds] returns starts at non-negative
    coordinates, has non-negative width and height, and is no wider and no
    higher than the rect it was given (than 0, where that one had a negative
    extent). *)
Theorem clipRectToPageBounds_never_negative_never_grows (r : Rect) (bound : Size) :
  let out := fst (clipRectToPageBounds r bound) in
  (0 ≤ x (origin out))%Qc ∧ (0 ≤ y (origin out))%Qc ∧
  (0 ≤ width (size out))%Qc ∧ (0 ≤ height (size out))%Qc ∧
  (width (size out) ≤ Math_max 0 (width (size r)))%Qc ∧
  (height (size out) ≤ Math_max 0 (height (size r)))%Qc.
Proof.
  cbv zeta. unfold clipRectToPageBounds; cbn.
  destruct (clip_axis_sign (x (origin r)) (width (size r)) (width bound))
    as (? & ? & ?).
  destruct (clip_axis_sign (y (origin r)) (height (size r)) (height bound))
    as (? & ? & ?).
  done.
Qed.

(** X2. Clipping what was clipped changes nothing: a clipped position comes
    back as it is and unflagged, against any bound; a clipped rect comes
    back as it is against any bound, and unflagged when the bound has no
    negative extent. *)
Theorem clipping_is_idempotent :
  (∀ (p : Position) (bound : Size),
     clipPositionToPageBounds (fst (clipPositionToPageBounds p bound)) bound
     = (fst (clipPositionToPageBounds p bound), false)) ∧
  (∀ (r : Rect) (bound : Size),
     fst (clipRectToPageBounds (fst (clipRectToPageBounds r bound)) bound)
     = fst (clipRectToPageBounds r bound)) ∧
  (∀ (r : Rect) (bound : Size),
     size_nonneg bound →
     snd (clipRectToPageBounds (fst (clipRectToPageBounds r bound)) bound) = false).
Proof.
  split; [| split].
  - intros p bound. unfold clipPositionToPageBounds; cbn.
    destruct (clip_axis_twice (x p) 0 (width bound)) as (-> & _).
    destruct (clip_axis_twice (y p) 0 (height bound)) as (-> & _).
    f_equal. apply orb_false_iff. split; by apply strict_ne_false.
  - intros r bound. unfold clipRectToPageBounds; cbn.
    destruct (clip_axis_twice (x (origin r)) (width (size r)) (width bound))
      as (-> & -> & _).
    destruct (clip_axis_twice (y (origin r)) (height (size r)) (height bound))
      as (-> & -> & _).
    done.
  - intros r bound [HW HH]. unfold clipRectToPageBounds; cbn.
    destruct (clip_axis_twice (x (origin r)) (width (size r)) (width bound))
      as (-> & _ & ->); [| done].
    destruct (clip_axis_twice (y (origin r)) (height (size r)) (height bound))
      as (-> & _ & ->); [| done].
    rewrite !orb_false_iff. repeat split; by apply strict_ne_false.
Qed.

(** The rect of the clipping test (400, 500, 100, 100) on the 300 x 400
    page: clipped to (300, 400, 0, 0), which a second pass leaves alone. *)
Lemma clipping_is_idempotent_witness :
  clipRectToPageBounds (mkRect 400 500 100 100)
    {| width := num 300; height := num 400 |} = (mkRect 300 400 0 0, true) ∧
  snd (clipRectToPageBounds
         (fst (clipRectToPageBounds (mkRect 400 500 100 100)
                 {| width := num 300; height := num 400 |}))
         {| width := num 300; height := num 400 |}) = false.
Proof.
  split; [by vm_compute |].
  apply (proj2 (proj2 clipping_is_idempotent)). split; by vm_compute.
Defined.

(** X3. A rect that starts left of the page (x < 0) is moved to the left
    edge, and its width is cut to the width of the page only: the part that
    hung over the edge is not taken off, so a width between 0 and the page
    width is kept as it is.  The rect is flagged.  Likewise for a rect that
    starts above the page. *)
Theorem clipRectToPageBounds_moves_rect_onto_page (r : Rect) (bound : Size) :
  let out := fst (clipRectToPageBounds r bound) in
  ((x (origin r) < 0)%Qc → (0 ≤ width bound)%Qc →
   x (origin out) = 0%Qc ∧
   width (size out) = Math_max 0 (Math_min (width (size r)) (width bound)) ∧
   ((0 ≤ width (size r))%Qc → (width (size r) ≤ width bound)%Qc →
    width (size out) = width (size r)) ∧
   snd (clipRectToPageBounds r bound) = true) ∧
  ((y (origin r) < 0)%Qc → (0 ≤ height bound)%Qc →
   y (origin out) = 0%Qc ∧
   height (size out) = Math_max 0 (Math_min (height (size r)) (height bound)) ∧
   ((0 ≤ height (size r))%Qc → (height (size r) ≤ height bound)%Qc →
    height (size out) = height (size r)) ∧
   snd (clipRectToPageBounds r bound) = true).
Proof.
  cbv zeta. unfold clipRectToPageBounds; cbn. split.
  - intros Hx HW.
    destruct (clip_axis_before (x (origin r)) (width (size r)) (width bound) Hx HW)
      as (Hc & Hs & Hkeep).
    repeat split; try done.
    rewrite !orb_true_iff. left; left; left.
    apply strict_ne_true. rewrite Hc. qc_lra.
  - intros Hy HH.
    destruct (clip_axis_before (y (origin r)) (height (size r)) (height bound) Hy HH)
      as (Hc & Hs & Hkeep).
    repeat split; try done.
    rewrite !orb_true_iff. left; left; right.
    apply strict_ne_true. rewrite Hc. qc_lra.
Qed.

(** The rect (-10, 20, 30, 10) on a 100 x 100 page: it hangs over the left
    edge by 10 and comes back as (0, 20, 30, 10), its right edge moved from
    20 to 30. *)
Lemma clipRectToPageBounds_moves_rect_onto_page_witness :
  let r := mkRect (-10) 20 30 10 in
  let bound := {| width := num 100; height := num 100 |} in
  x (origin (fst (clipRectToPageBounds r bound))) = 0%Qc ∧
  width (size (fst (clipRectToPageBounds r bound))) = num 30 ∧
  snd (clipRectToPageBounds r bound) = true.
Proof.
  cbv zeta.
  destruct (clipRectToPageBounds_moves_rect_onto_page (mkRect (-10) 20 30 10)
              {| width := num 100; height := num 100 |}) as [Hx _].
  destruct Hx as (Horigin & _ & Hkeep & Hflag); [by vm_compute | by vm_compute |].
  split; [exact Horigin | split; [| exact Hflag]].
  apply Hkeep; by vm_compute.
Defined.

(** ** The shape transform, on any annotation *)

Lemma clipPosition_unflagged_within (p : Position) (bound : Size) :
  size_nonneg bound → snd (clipPositionToPageBounds p bound) = false →
  point_within bound p.
Proof.
  intros [HW HH]. unfold clipPositionToPageBounds; cbn.
  rewrite orb_false_iff, !strict_ne_false. intros [Hx Hy].
  pose proof (clamp_range (x p) _ HW) as Hcx.
  pose proof (clamp_range (y p) _ HH) as Hcy.
  rewrite Hx in Hcx. rewrite Hy in Hcy. done.
Qed.

Lemma clipRect_unflagged_within (r : Rect) (bound : Size) :
  size_nonneg (size r) → size_nonneg bound →
  snd (clipRectToPageBounds r bound) = false → rect_within bound r.
Proof.
  intros [Hw Hh] [HW HH]. unfold clipRectToPageBounds; cbn.
  rewrite !orb_false_iff, !strict_ne_false. intros [[[Hx Hy] Hcw] Hch].
  pose proof (clamp_range (x (origin r)) _ HW) as [Hx0 Hx1].
  pose proof (clamp_range (y (origin r)) _ HH) as [Hy0 Hy1].
  rewrite Hx in *. rewrite Hy in *.
  unfold rect_within. repeat split; try done; min_max_cases; qc_lra.
Qed.

Lemma any_point_clipped_false (bound : Size) (ps : list Position) :
  size_nonneg bound → any_point_clipped bound ps = false →
  Forall (point_within bound) ps.
Proof.
  intros Hb. unfold any_point_clipped.
  induction ps as [| p ps IH]; cbn; [by constructor |].
  rewrite orb_false_iff. intros [Hp Hps]. constructor; [| by apply IH].
  by apply clipPosition_unflagged_within.
Qed.

Lemma kind_within_points (bound : Size) (g : KindGeometry) :
  kind_within bound g ↔ Forall (point_within bound) (kind_points g).
Proof.
  destruct g as [inks | vs | l |]; cbn.
  - induction inks as [| ink inks IH]; cbn.
    + split; by constructor.
    + rewrite Forall_cons, Forall_app, IH. done.
  - done.
  - rewrite !Forall_cons, Forall_nil. tauto.
  - rewrite Forall_nil. done.
Qed.

Lemma clip_points_app (bound : Size) (ps qs : list Position) :
  clip_points bound (ps ++ qs) = clip_points bound ps ++ clip_points bound qs.
Proof. unfold clip_points. apply fmap_app. Qed.

(** The points of a transformed annotation are the points of the source,
    each clipped on its own; its rect is the rect of the source, clipped. *)
Lemma transform_points (a : PdfAnnotationObject) (sp tp : PdfPageObject) :
  let out := fst (transformAnnotationForTargetPage a sp tp) in
  kind_points (kind_geometry out)
  = clip_points (getRotatedPageSize tp) (kind_points (kind_geometry a)) ∧
  rect (base out) = fst (clipRectToPageBounds (rect (base a)) (getRotatedPageSize tp)).
Proof.
  cbv zeta. split.
  - rewrite transformAnnotationForTargetPage_eq.
    destruct a as [i | p | p | l | t b]; cbn; try done.
    induction (inkList i) as [| ink inks IH]; cbn; [done |].
    by rewrite clip_points_app, IH.
  - by destruct (transform_keeps_kind a sp tp) as [_ ->].
Qed.

Lemma transform_flag (a : PdfAnnotationObject) (sp tp : PdfPageObject) :
  snd (transformAnnotationForTargetPage a sp tp)
  = snd (clipRectToPageBounds (rect (base a)) (getRotatedPageSize tp))
    || any_point_clipped (getRotatedPageSize tp) (kind_points (kind_geometry a)).
Proof.
  rewrite transformAnnotationForTargetPage_eq.
  destruct a as [i | p | p | l | t b]; cbn.
  - f_equal. unfold any_point_clipped.
    induction (inkList i) as [| ink inks IH]; cbn; [done |].
    by rewrite existsb_app, IH.
  - done.
  - done.
  - unfold any_point_clipped; cbn. by rewrite orb_false_r.
  - unfold any_point_clipped; cbn. by rewrite orb_false_r.
Qed.

Lemma transform_unflagged_within (a : PdfAnnotationObject) (sp tp : PdfPageObject) :
  size_nonneg (size (rect (base a))) → size_nonneg (page_size tp) →
  snd (transformAnnotationForTargetPage a sp tp) = false →
  geometry_within (effectiveSize tp) a.
Proof.
  intros Hsize [HW HH]. rewrite transform_flag, orb_false_iff. intros [Hrect Hpts].
  assert (size_nonneg (getRotatedPageSize tp)) as Hb.
  { rewrite getRotatedPageSize_effective. by apply effectiveSize_nonneg. }
  rewrite <- getRotatedPageSize_effective. split.
  - by apply clipRect_unflagged_within.
  - apply kind_within_points. by apply any_point_clipped_false.
Qed.

Lemma with_rect_same (b : AnnotationBase) : with_rect b (rect b) = b.
Proof. by destruct b. Qed.

(** An annotation whose geometry lies within the bounds of the target page
    comes back as it is, field by field. *)
Lemma transform_inside_eq (a : PdfAnnotationObject) (sp tp : PdfPageObject) :
  geometry_within (getRotatedPageSize tp) a →
  transformAnnotationForTargetPage a sp tp = (a, false).
Proof.
  intros [Hrect Hkind].
  rewrite transformAnnotationForTargetPage_eq.
  rewrite (clipRect_inside _ _ Hrect).
  destruct a as [i | p | p | l | t b]; cbn in *; rewrite with_rect_same.
  - destruct (ink_paths_inside _ _ Hkind) as [-> ->]. by destruct i.
  - destruct (clip_points_inside _ _ Hkind) as [-> ->]. by destruct p.
  - destruct (clip_points_inside _ _ Hkind) as [-> ->]. by destruct p.
  - destruct Hkind as [Hs He].
    rewrite (clipPosition_inside _ _ Hs), (clipPosition_inside _ _ He); cbn.
    by destruct l as [b [s e]].
  - done.
Qed.




(** X5. Under the same two conditions the flag of the shape transform tells
    exactly whether the geometry changed: it is true if and only if the rect
    or some point of the transformed annotation differs from the source. *)
Theorem transform_flagged_iff_geometry_changed (a : PdfAnnotationObject)
    (sourcePage targetPage : PdfPageObject) :
  size_nonneg (size (rect (base a))) → size_nonneg (page_size targetPage) →
  snd (transformAnnotationForTargetPage a sourcePage targetPage) = true
  ↔ geometry (fst (transformAnnotationForTargetPage a sourcePage targetPage))
    ≠ geometry a.
Proof.
  intros Hsize [HW HH]. split.
  - intros Hflag Hsame.
    assert (geometry_within (getRotatedPageSize targetPage) a) as Hin.
    { rewrite getRotatedPageSize_effective.
      eapply geometry_within_geometry; [symmetry; exact Hsame |].
      by apply transform_within. }
    rewrite (transform_inside_eq a sourcePage targetPage Hin) in Hflag. done.
  - intros Hchanged.
    destruct (snd (transformAnnotationForTargetPage a sourcePage targetPage))
      eqn:Hflag; [done |].
    destruct Hchanged.
    apply transform_unflagged_within in Hflag; [| done | done].
    rewrite <- getRotatedPageSize_effective in Hflag.
    by rewrite (transform_inside_eq a sourcePage targetPage Hflag).
Qed.

(** The square of the clipping test: flagged on the 300 x 400 page, where
    its rect changes. *)
Lemma transform_flagged_iff_geometry_changed_witness :
  geometry (fst (transformAnnotationForTargetPage
                   (createSquareAnnotation "anno-1" 0 400 500 100 100)
                   (createMockPage 0 612 792 Degree0)
                   (createMockPage 1 300 400 Degree0)))
  ≠ geometry (createSquareAnnotation "anno-1" 0 400 500 100 100).
Proof.
  apply (transform_flagged_iff_geometry_changed
           (createSquareAnnotation "anno-1" 0 400 500 100 100)
           (createMockPage 0 612 792 Degree0) (createMockPage 1 300 400 Degree0));
    [split; by vm_compute .. | by vm_compute].
Defined.

(** X6. Transforming for one page twice is transforming once: on a target
    page of non-negative width and height, the annotation the transform
    returns, transformed again for that page (from whatever source page),
    comes back field by field as it is, and unflagged. *)
Theorem transform_is_idempotent (a : PdfAnnotationObject)
    (sourcePage sourcePage' targetPage : PdfPageObject) :
  size_nonneg (page_size targetPage) →
  let out := fst (transformAnnotationForTargetPage a sourcePage targetPage) in
  transformAnnotationForTargetPage out sourcePage' targetPage = (out, false).
Proof.
  intros [HW HH] out. apply transform_inside_eq.
  rewrite getRotatedPageSize_effective. by apply transform_within.
Qed.

(** The ink annotation of the clipping test on the 100 x 100 page. *)
Lemma transform_is_idempotent_witness :
  let out :=
    fst (transformAnnotationForTargetPage (createInkAnnotation "ink-1" 0 80 80 40 40)
           (createMockPage 0 612 792 Degree0) (createMockPage 1 100 100 Degree0)) in
  snd (transformAnnotationForTargetPage (createInkAnnotation "ink-1" 0 80 80 40 40)
         (createMockPage 0 612 792 Degree0) (createMockPage 1 100 100 Degree0)) = true ∧
  transformAnnotationForTargetPage out (createMockPage 0 612 792 Degree0)
    (createMockPage 1 100 100 Degree0) = (out, false).
Proof.
  cbv zeta. split; [by vm_compute |].
  apply (transform_is_idempotent (createInkAnnotation "ink-1" 0 80 80 40 40)
           (createMockPage 0 612 792 Degree0) (createMockPage 0 612 792 Degree0)
           (createMockPage 1 100 100 Degree0)).
  split; by vm_compute.
Defined.

(** X7. The shape transform never adds or drops anything: the transformed
    annotation has the type of the source, as many strokes with as many
    points each, as many vertices, and its points are the points of the
    source in their order, each clipped on its own against the target page. *)
Theorem transform_keeps_shape (a : PdfAnnotationObject)
    (sourcePage targetPage : PdfPageObject) :
  let out := fst (transformAnnotationForTargetPage a sourcePage targetPage) in
  type out = type a ∧
  kind_shape (kind_geometry out) = kind_shape (kind_geometry a) ∧
  kind_points (kind_geometry out)
  = (λ p, fst (clipPositionToPageBounds p (getRotatedPageSize targetPage)))
      <$> kind_points (kind_geometry a).
Proof.
  cbv zeta. split; [by destruct (transform_keeps_kind a sourcePage targetPage) |].
  split; [| by destruct (transform_points a sourcePage targetPage)].
  rewrite transformAnnotationForTargetPage_eq.
  destruct a as [i | p | p | l | t b]; cbn; try done.
  - f_equal. rewrite <- list_fmap_compose. apply list_fmap_ext.
    intros k ink _; cbn. unfold clip_points. by rewrite length_fmap.
  - unfold clip_points. by rewrite length_fmap.
  - unfold clip_points. by rewrite length_fmap.
Qed.



(** X9. The target page enters the shape transform through its effective
    size alone: two target pages of equal effective size give the same
    result, so a page turned by 180 degrees clips like the page unturned, a
    page at 270 degrees like the page at 90 degrees, and a page of w x h at
    90 degrees like a page of h x w at 0 degrees, whatever their indexes. *)
Theorem transform_depends_on_effective_size (a : PdfAnnotationObject)
    (sourcePage : PdfPageObject) :
  (∀ targetPage1 targetPage2 : PdfPageObject,
     effectiveSize targetPage1 = effectiveSize targetPage2 →
     transformAnnotationForTargetPage a sourcePage targetPage1
     = transformAnnotationForTargetPage a sourcePage targetPage2) ∧
  (∀ (i j : Z) (s : Size),
     transformAnnotationForTargetPage a sourcePage
       {| index := i; page_size := s; rotation := Degree180 |}
     = transformAnnotationForTargetPage a sourcePage
         {| index := j; page_size := s; rotation := Degree0 |}) ∧
  (∀ (i j : Z) (s : Size),
     transformAnnotationForTargetPage a sourcePage
       {| index := i; page_size := s; rotation := Degree270 |}
     = transformAnnotationForTargetPage a sourcePage
         {| index := j; page_size := s; rotation := Degree90 |}) ∧
  (∀ (i j : Z) (w h : number),
     transformAnnotationForTargetPage a sourcePage
       {| index := i; page_size := {| width := w; height := h |};
          rotation := Degree90 |}
     = transformAnnotationForTargetPage a sourcePage
         {| index := j; page_size := {| width := h; height := w |};
            rotation := Degree0 |}).
Proof.
  assert (∀ tp1 tp2 : PdfPageObject,
            effectiveSize tp1 = effectiveSize tp2 →
            transformAnnotationForTargetPage a sourcePage tp1
            = transformAnnotationForTargetPage a sourcePage tp2) as Heq.
  { intros tp1 tp2 Hsize.
    rewrite !transformAnnotationForTargetPage_eq, !getRotatedPageSize_effective.
    by rewrite Hsize. }
  split; [exact Heq |]. split; [| split]; intros; apply Heq; reflexivity.
Qed.

(** The square (400, 100, 50, 50) on a 300 x 600 page at 90 degrees, whose
    effective size is 600 x 300, and on a 600 x 300 page at 180 degrees:
    unclipped on both, with one result. *)
Lemma transform_depends_on_effective_size_witness :
  transformAnnotationForTargetPage (createSquareAnnotation "anno-1" 0 400 100 50 50)
    (createMockPage 0 612 792 Degree0) (createMockPage 1 300 600 Degree90)
  = transformAnnotationForTargetPage (createSquareAnnotation "anno-1" 0 400 100 50 50)
      (createMockPage 0 612 792 Degree0) (createMockPage 2 600 300 Degree180).
Proof.
  apply (proj1 (transform_depends_on_effective_size
                  (createSquareAnnotation "anno-1" 0 400 100 50 50)
                  (createMockPage 0 612 792 Degree0))).
  by vm_compute.
Defined.

(** X10. A target page without extent collapses everything onto its corner:
    on a page of width 0 and height 0, at any rotation, the transformed rect
    is the empty rect at the origin and every transformed point is the
    origin, whatever the source. *)
Theorem transform_onto_empty_page (a : PdfAnnotationObject)
    (sourcePage targetPage : PdfPageObject) :
  width (page_size targetPage) = 0%Qc → height (page_size targetPage) = 0%Qc →
  let out := fst (transformAnnotationForTargetPage a sourcePage targetPage) in
  rect (base out) =
    {| origin := {| x := 0%Qc; y := 0%Qc |};
       size := {| width := 0%Qc; height := 0%Qc |} |} ∧
  Forall (λ p, p = {| x := 0%Qc; y := 0%Qc |}) (kind_points (kind_geometry out)).
Proof.
  intros HW HH out.
  assert (geometry_within {| width := 0%Qc; height := 0%Qc |} out) as [Hrect Hpts].
  { replace {| width := 0%Qc; height := 0%Qc |} with (effectiveSize targetPage).
    - apply transform_within; [rewrite HW | rewrite HH]; done.
    - unfold effectiveSize.
      destruct targetPage as [i [w h] r]; cbn in *; subst; by destruct r. }
  split.
  - destruct Hrect as (? & ? & ? & ? & ? & ?).
    destruct (rect (base out)) as [[ox oy] [ow oh]]; cbn in *.
    f_equal; f_equal; qc_lra.
  - apply kind_within_points in Hpts.
    eapply Forall_impl; [exact Hpts |].
    intros [px py] [[? ?] [? ?]]; cbn in *. f_equal; qc_lra.
Qed.

(** The ink annotation of the test-suite on a page of 0 x 0. *)
Lemma transform_onto_empty_page_witness :
  geometry (fst (transformAnnotationForTargetPage
                   (createInkAnnotation "ink-1" 0 80 80 40 40)
                   (createMockPage 0 612 792 Degree0) (createMockPage 1 0 0 Degree90)))
  = (mkRect 0 0 0 0,
     InkPaths [ {| points := [ {| x := num 0; y := num 0 |};
                               {| x := num 0; y := num 0 |};
                               {| x := num 0; y := num 0 |} ] |} ]).
Proof.
  destruct (transform_onto_empty_page (createInkAnnotation "ink-1" 0 80 80 40 40)
              (createMockPage 0 612 792 Degree0) (createMockPage 1 0 0 Degree90))
    as [Hrect _]; [by vm_compute | by vm_compute |].
  unfold geometry. rewrite Hrect. by vm_compute.
Defined.

(** X11. What fits a page fits every page at least as large: for a source
    rect of non-negative width and height and a target page of non-negative
    width and height on which the transform reports no clipping, the
    transform returns the source unchanged and unflagged on every target
    page whose effective size is at least as wide and as high. *)
Theorem transform_unflagged_on_larger_page (a : PdfAnnotationObject)
    (sourcePage targetPage largerPage : PdfPageObject) :
  size_nonneg (size (rect (base a))) → size_nonneg (page_size targetPage) →
  size_le (effectiveSize targetPage) (effectiveSize largerPage) →
  snd (transformAnnotationForTargetPage a sourcePage targetPage) = false →
  transformAnnotationForTargetPage a sourcePage largerPage = (a, false).
Proof.
  intros Hsize Hpage [HW HH] Hflag.
  apply transform_inside_eq. rewrite getRotatedPageSize_effective.
  eapply geometry_within_mono; [exact HW | exact HH |].
  by apply transform_unflagged_within with sourcePage.
Qed.

(** The square of the test-suite fits the letter page, hence the
    1000 x 1000 page. *)
Lemma transform_unflagged_on_larger_page_witness :
  transformAnnotationForTargetPage (createSquareAnnotation "anno-1" 0 100 100 50 50)
    (createMockPage 0 612 792 Degree0) (createMockPage 2 1000 1000 Degree0)
  = (createSquareAnnotation "anno-1" 0 100 100 50 50, false).
Proof.
  apply (transform_unflagged_on_larger_page
           (createSquareAnnotation "anno-1" 0 100 100 50 50)
           (createMockPage 0 612 792 Degree0) (createMockPage 1 612 792 Degree0)
           (createMockPage 2 1000 1000 Degree0)).
  - split; by vm_compute.
  - split; by vm_compute.
  - split; by vm_compute.
  - by vm_compute.
Defined.

(** ** The whole call, on any page list *)

Lemma returned_world (uuid_stream : nat → string) (clock : nat → Date)
    (src : PdfAnnotationObject) (pages : list PdfPageObject)
    (options : option DuplicateAnnotationOptions) (w : World)
    (res : DuplicateAnnotationResult) (w' : World) :
  generateDuplicateAnnotations uuid_stream clock src pages options w = Returned res w' →
  ∃ sp,
    find (λ p, bool_decide (index p = pageIndex (base src))) pages = Some sp ∧
    w' = world_after w src sp
           (eligible_pages (pageIndex (base src)) (includes_source options) pages).
Proof.
  rewrite generateDuplicateAnnotations_run.
  destruct (find _ pages) as [sp |]; [| done].
  intros [= <- <-]. by exists sp.
Qed.

Lemma eligible_pages_exclude (i : Z) (pages : list PdfPageObject) :
  eligible_pages i false pages = filter (λ p, index p ≠ i) pages.
Proof.
  unfold eligible_pages. apply list_filter_iff. intros p. split; [| by right].
  by intros [? | ?].
Qed.

(** X12. With [includeSourcePage] false or absent, no annotation a call
    returns sits on the page index of the source annotation, and that index
    is not among the clipped pages; the call returns one annotation for
    every page of another index, also when several pages share the index of
    the source. *)
Theorem generateDuplicateAnnotations_skips_source_index
    (uuid_stream : nat → string) (clock : nat → Date)
    (src : PdfAnnotationObject) (pages : list PdfPageObject)
    (options : option DuplicateAnnotationOptions) (w : World)
    (res : DuplicateAnnotationResult) (w' : World) :
  includes_source options = false →
  generateDuplicateAnnotations uuid_stream clock src pages options w = Returned res w' →
  Forall (λ a, pageIndex (base a) ≠ pageIndex (base src)) (annotations res) ∧
  (pageIndex (base src) ∉ clippedPages res) ∧
  (λ a, pageIndex (base a)) <$> annotations res
  = filter (λ i, i ≠ pageIndex (base src)) (index <$> pages) ∧
  length (annotations res)
  = length (filter (λ p, index p ≠ pageIndex (base src)) pages).
Proof.
  intros Hinc (sp & _ & Hannos & Hclipped)%returned_annotations.
  rewrite Hinc, eligible_pages_exclude in Hannos, Hclipped.
  assert ((λ a, pageIndex (base a)) <$> annotations res
          = index <$> filter (λ p, index p ≠ pageIndex (base src)) pages) as Hidx
    by (rewrite Hannos; apply duplicates_pageIndex).
  split; [| split; [| split]].
  - apply Forall_fmap with (f := λ a, pageIndex (base a))
                           (P := λ i, i ≠ pageIndex (base src)).
    rewrite Hidx. apply Forall_fmap, Forall_forall.
    by intros p [? _]%list_elem_of_filter.
  - rewrite Hclipped.
    intros (p & Hp & [_ [Hne _]%list_elem_of_filter]%list_elem_of_filter)%list_elem_of_fmap.
    done.
  - rewrite Hidx. clear. induction pages as [| p pages IH]; [done |].
    rewrite fmap_cons, !filter_cons. case_decide; cbn; by rewrite IH.
  - rewrite Hannos. unfold duplicates. by rewrite length_imap.
Qed.

(** Two pages with the index of the source and one other page. *)
Lemma generateDuplicateAnnotations_skips_source_index_witness :
  ∃ res w',
    generateDuplicateAnnotations example_uuids example_clock
      (createSquareAnnotation "anno-1" 0 100 100 50 50)
      [createMockPage 0 612 792 Degree0; createMockPage 1 612 792 Degree0;
       createMockPage 0 300 400 Degree0]
      None initial_world = Returned res w' ∧
    (λ a, pageIndex (base a)) <$> annotations res = [1%Z] ∧
    length (annotations res) = 1%nat.
Proof.
  destruct (generateDuplicateAnnotations _ _ _ _ _ _) as [res w' | e w'] eqn:Hrun;
    [| by vm_compute in Hrun].
  exists res, w'. split; [done |].
  destruct (generateDuplicateAnnotations_skips_source_index
              example_uuids example_clock
              (createSquareAnnotation "anno-1" 0 100 100 50 50)
              [createMockPage 0 612 792 Degree0; createMockPage 1 612 792 Degree0;
               createMockPage 0 300 400 Degree0]
              None initial_world res w' eq_refl Hrun) as (_ & _ & Hidx & Hlen).
  split; [exact Hidx | exact Hlen].
Defined.

(** X13. With [includeSourcePage] true, a call that returns has made one
    annotation for every page, in the order of the pages, the pages with the
    index of the source included and whether or not indexes repeat. *)
Theorem generateDuplicateAnnotations_includes_every_page
    (uuid_stream : nat → string) (clock : nat → Date)
    (src : PdfAnnotationObject) (pages : list PdfPageObject)
    (options : option DuplicateAnnotationOptions) (w : World)
    (res : DuplicateAnnotationResult) (w' : World) :
  includes_source options = true →
  generateDuplicateAnnotations uuid_stream clock src pages options w = Returned res w' →
  (λ a, pageIndex (base a)) <$> annotations res = index <$> pages ∧
  length (annotations res) = length pages ∧
  ∃ a, a ∈ annotations res ∧ pageIndex (base a) = pageIndex (base src).
Proof.
  intros Hinc Hrun.
  pose proof Hrun as (sp & Hfind & Hannos & _)%returned_annotations.
  rewrite Hinc, eligible_pages_all in Hannos.
  assert ((λ a, pageIndex (base a)) <$> annotations res = index <$> pages) as Hidx
    by (rewrite Hannos; apply duplicates_pageIndex).
  split; [done |]. split.
  - rewrite Hannos. unfold duplicates. by rewrite length_imap.
  - assert (pageIndex (base src) ∈ index <$> pages) as Hin.
    { apply source_page_index, find_sourcePage_Some. by exists sp. }
    rewrite <- Hidx in Hin.
    apply list_elem_of_fmap in Hin as (a & Ha & Hin). by exists a.
Qed.

(** The test of the included source page, with a repeated index. *)
Lemma generateDuplicateAnnotations_includes_every_page_witness :
  ∃ res w',
    generateDuplicateAnnotations example_uuids example_clock
      (createSquareAnnotation "anno-1" 0 100 100 50 50)
      [createMockPage 0 612 792 Degree0; createMockPage 1 612 792 Degree0;
       createMockPage 0 300 400 Degree0]
      (Some {| includeSourcePage := Some true |}) initial_world = Returned res w' ∧
    (λ a, pageIndex (base a)) <$> annotations res = [0; 1; 0]%Z.
Proof.
  destruct (generateDuplicateAnnotations _ _ _ _ _ _) as [res w' | e w'] eqn:Hrun;
    [| by vm_compute in Hrun].
  exists res, w'. split; [done |].
  destruct (generateDuplicateAnnotations_includes_every_page
              example_uuids example_clock
              (createSquareAnnotation "anno-1" 0 100 100 50 50)
              [createMockPage 0 612 792 Degree0; createMockPage 1 612 792 Degree0;
               createMockPage 0 300 400 Degree0]
              (Some {| includeSourcePage := Some true |}) initial_world res w'
              eq_refl Hrun) as (Hidx & _).
  exact Hidx.
Defined.

(** X14. A call that returns has drawn exactly one identifier and one date
    for every annotation it returns, the k-th annotation carrying the k-th
    date drawn as its [created], and has written to the console exactly one
    warning for every entry of [clippedPages], in the order of the entries,
    each with the id of the source annotation, the index of the clipped page
    and the stored size of that page. *)
Theorem generateDuplicateAnnotations_effects
    (uuid_stream : nat → string) (clock : nat → Date)
    (src : PdfAnnotationObject) (pages : list PdfPageObject)
    (options : option DuplicateAnnotationOptions) (w : World)
    (res : DuplicateAnnotationResult) (w' : World) :
  generateDuplicateAnnotations uuid_stream clock src pages options w = Returned res w' →
  uuid_calls w' = (uuid_calls w + length (annotations res))%nat ∧
  date_calls w' = (date_calls w + length (annotations res))%nat ∧
  (∀ k a, annotations res !! k = Some a →
     created (base a) = Some (clock (date_calls w + k)%nat)) ∧
  ∃ warnings,
    console w' = console w ++ warnings ∧
    warn_page <$> warnings = clippedPages res ∧
    Forall (λ m, warn_annotation m = id (base src) ∧
                 ∃ p, p ∈ pages ∧ index p = warn_page m ∧ warn_size m = page_size p)
      warnings.
Proof.
  intros Hrun.
  pose proof Hrun as (sp & Hfind & Hannos & Hclipped)%returned_annotations.
  apply returned_world in Hrun as (sp' & Hfind' & ->).
  rewrite Hfind in Hfind'. injection Hfind' as <-.
  set (targets := eligible_pages (pageIndex (base src)) (includes_source options) pages)
    in *.
  assert (length (annotations res) = length targets) as ->
    by (rewrite Hannos; unfold duplicates; by rewrite length_imap).
  split; [done |]. split; [done |]. split.
  - intros k a. rewrite Hannos. unfold duplicates.
    intros (tp & _ & ->)%list_lookup_imap_Some. by rewrite duplicate_with_base.
  - exists (clip_warning src <$> filter (clips src sp) targets).
    split; [done |]. split.
    + rewrite Hclipped, <- list_fmap_compose. by apply list_fmap_ext.
    + apply Forall_fmap, Forall_forall.
      intros p [_ Hp]%list_elem_of_filter. cbn. split; [done |].
      exists p. split; [| done].
      eapply elem_of_sublist; [exact Hp | apply eligible_pages_sublist].
Qed.

(** The test of the smaller target page: one annotation, one warning. *)
Lemma generateDuplicateAnnotations_effects_witness :
  ∃ res w',
    generateDuplicateAnnotations example_uuids example_clock
      (createSquareAnnotation "anno-1" 0 400 500 100 100)
      [createMockPage 0 612 792 Degree0; createMockPage 1 300 400 Degree0]
      None initial_world = Returned res w' ∧
    uuid_calls w' = 1%nat ∧ date_calls w' = 1%nat ∧
    console w' =
      [ {| warn_annotation := "anno-1"; warn_page := 1;
           warn_size := {| width := num 300; height := num 400 |} |} ].
Proof.
  destruct (generateDuplicateAnnotations _ _ _ _ _ _) as [res w' | e w'] eqn:Hrun;
    [| by vm_compute in Hrun].
  exists res, w'. split; [done |].
  destruct (generateDuplicateAnnotations_effects example_uuids example_clock
              (createSquareAnnotation "anno-1" 0 400 500 100 100)
              [createMockPage 0 612 792 Degree0; createMockPage 1 300 400 Degree0]
              None initial_world res w' Hrun) as (Hu & Hd & _).
  assert (length (annotations res) = 1%nat) as Hlen
    by (vm_compute in Hrun; by injection Hrun as <- <-).
  rewrite Hlen in Hu, Hd. split; [exact Hu |]. split; [exact Hd |].
  vm_compute in Hrun. by injection Hrun as <- <-.
Defined.




(** ** The fixtures *)




